(** * The conversation dispatcher of the ITMO chat bot

    A shallow embedding of [app/internal/services/fsm.py] (class
    [FSMService]) together with the thin services it calls, and the
    properties of the dispatch / state-machine engine proved on it.

    The coroutines of the source become functions in a state-and-exception
    monad over a [World] that holds the external collaborators: the Redis
    session store, the two PostgreSQL tables, the Telegram outbox, the
    chronological list of external calls and the log.  Which external call
    raises is decided by an arbitrary oracle [fails], so every theorem holds
    for every pattern of collaborator outages unless it assumes otherwise. *)

From Stdlib Require Import ZArith List String Ascii Bool Lia.
From stdpp Require Import base option gmap strings list.

Local Open Scope string_scope.
Local Open Scope Z_scope.

(** ** Data model *)

(** [app/pkg/models/app/fsm/__init__.py] *)
Inductive States : Type :=
| MAIN_MENU
| QUESTIONS
| RECOMMENDATION.

Inductive UpdateTypes : Type :=
| TEXT.

#[global] Instance States_eq_dec : EqDecision States.
Proof. solve_decision. Defined.

(** Modelled from the spec: the base class [BaseEnum] of
    [app/pkg/models/base] is not part of the sources.  The spec's state
    routing ("the current state matches an entry in the state-routing
    table") needs a member to hash and compare like its string value, so a
    member is identified with its [.value]. *)
Definition States_value (s : States) : string :=
  match s with
  | MAIN_MENU => "main_menu"
  | QUESTIONS => "questions"
  | RECOMMENDATION => "recommendation"
  end.

(** Enum validation of pydantic: [States(v)], [None] when [v] names no
    member. *)
Definition States_of_value (v : string) : option States :=
  if decide (v = "main_menu") then Some MAIN_MENU
  else if decide (v = "questions") then Some QUESTIONS
  else if decide (v = "recommendation") then Some RECOMMENDATION
  else None.

Record StateInformation : Type := mkStateInformation {
  state : option States
}.

(** The part of [app/pkg/clients/telegram/models/request.py] the service
    reads: [Update.message], [Message.from_], [Message.chat],
    [Message.text] and the two identifiers. *)
Record User : Type := mkUser { user_id : Z }.
Record Chat : Type := mkChat { chat_id : Z }.

Record Message : Type := mkMessage {
  message_id : Z;
  from_ : option User;
  chat : Chat;
  text : option string
}.

Record Update : Type := mkUpdate {
  update_id : Z;
  message : option Message
}.

Record KeyboardButton : Type := mkKeyboardButton { kb_text : string }.

Record InlineKeyboardButton : Type := mkInlineKeyboardButton {
  ikb_text : string;
  ikb_url : string
}.

Inductive ReplyMarkup : Type :=
| InlineKeyboardMarkup (inline_keyboard : list (list InlineKeyboardButton))
| ReplyKeyboardMarkup (keyboard : list (list KeyboardButton))
                      (resize_keyboard is_persistent : bool).

(** The keyword arguments of [TelegramClient.send_message] the service
    passes. *)
Record SendMessage : Type := mkSendMessage {
  sm_chat_id : Z;
  sm_text : string;
  sm_parse_mode : option string;
  sm_reply_markup : option ReplyMarkup
}.

(** [app/pkg/clients/telegram/models/response.py] *)
Record TelegramAPISendMessageResponse : Type := mkResponse {
  ok : bool;
  result : option Message;
  error_code : option positive;
  description : option string
}.

(** [app/pkg/models/app/supported_program] and
    [app/pkg/models/app/user_specific] *)
Record SupportedProgramResponse : Type := mkProgram {
  name : string;
  website_url : string
}.

Record UserSpecificResponse : Type := mkUserSpecific {
  us_user_id : Z;
  specific : string
}.

(** [app/internal/services/openai.py] *)
Record RecommendationResponse : Type := mkRecommendation {
  recommendation : string;
  recommended_program : string
}.

(** ** External calls, exceptions and the world *)

Inductive Call : Type :=
| RedisHGetAll (key : Z)
| RedisHSet (key : Z) (mapping : gmap string string)
| RedisHDel (key : Z) (fields : list string)
| RedisDelete (key : Z)
| ReadAllProgramms
| InsertUserSpecific (uid : Z) (spec : string)
| ReadListedUserSpecifics (uid : Z)
| AnswerQuestion (websites : list string) (question : option string)
| ProvideRecommendation (websites specifics programs : list string)
| TelegramSendMessage (m : SendMessage).

Inductive exn : Type :=
| ValueError (msg : string)
| AttributeError
| ValidationError
| UnicodeDecodeError
| IndexError
| EmptyResult
| CollaboratorError (c : Call).

Inductive outcome (A : Type) : Type :=
| Return (a : A)
| Raise (e : exn).
Arguments Return {A} a.
Arguments Raise {A} e.

Inductive LogLevel : Type := INFO | ERROR.

(** A log record keeps the level and the format string; the formatted
    arguments are not modelled. *)
Definition LogRecord : Type := LogLevel * string.

Record World : Type := mkWorld {
  redis : gmap Z (gmap string string);
  user_specifics : list UserSpecificResponse;
  supported_programms : list SupportedProgramResponse;
  delivered : list SendMessage;
  calls : list Call;
  log : list LogRecord
}.

Definition set_redis (f : gmap Z (gmap string string) -> gmap Z (gmap string string))
    (w : World) : World :=
  mkWorld (f (redis w)) (user_specifics w) (supported_programms w)
          (delivered w) (calls w) (log w).

Definition add_user_specific (r : UserSpecificResponse) (w : World) : World :=
  mkWorld (redis w) (user_specifics w ++ [r]) (supported_programms w)
          (delivered w) (calls w) (log w).

Definition add_delivered (m : SendMessage) (w : World) : World :=
  mkWorld (redis w) (user_specifics w) (supported_programms w)
          (delivered w ++ [m]) (calls w) (log w).

Definition add_call (c : Call) (w : World) : World :=
  mkWorld (redis w) (user_specifics w) (supported_programms w)
          (delivered w) (calls w ++ [c]) (log w).

Definition add_log (r : LogRecord) (w : World) : World :=
  mkWorld (redis w) (user_specifics w) (supported_programms w)
          (delivered w) (calls w) (log w ++ [r]).

(** ** The monad of the coroutines *)

Definition M (A : Type) : Type := World -> outcome A * World.

Definition ret {A} (a : A) : M A := fun w => (Return a, w).

Definition raise {A} (e : exn) : M A := fun w => (Raise e, w).

Definition bind {A B} (m : M A) (k : A -> M B) : M B :=
  fun w =>
    match m w with
    | (Return a, w') => k a w'
    | (Raise e, w') => (Raise e, w')
    end.

(** [try: body except Exception as ex: handler ex] *)
Definition try_except {A} (body : M A) (handler : exn -> M A) : M A :=
  fun w =>
    match body w with
    | (Return a, w') => (Return a, w')
    | (Raise e, w') => handler e w'
    end.

Definition lift {A} (o : outcome A) : M A := fun w => (o, w).

Notation "'let!' x ':=' m 'in' k" := (bind m (fun x => k))
  (at level 10, x name, m at level 100, k at level 200).
Notation "'do!' m 'in' k" := (bind m (fun _ => k))
  (at level 10, m at level 100, k at level 200).

Definition logger (level : LogLevel) (fmt : string) : M unit :=
  fun w => (Return tt, add_log (level, fmt) w).

(** ** [bytes.decode()]

    Redis returns field names and values as [bytes]; [.decode()] is the
    strict UTF-8 decoder.  Byte strings and decoded text are both kept as
    UTF-8 [string]s, so decoding checks well-formedness (Unicode table 3-7)
    and returns the same bytes. *)

Definition byte_in (lo hi : Z) (c : ascii) : bool :=
  let b := Z.of_N (N_of_ascii c) in (lo <=? b) && (b <=? hi).

Definition continuation : ascii -> bool := byte_in 0x80 0xBF.

Definition lead3 (a b : ascii) : bool :=
  (byte_in 0xE0 0xE0 a && byte_in 0xA0 0xBF b)
  || (byte_in 0xE1 0xEC a && continuation b)
  || (byte_in 0xED 0xED a && byte_in 0x80 0x9F b)
  || (byte_in 0xEE 0xEF a && continuation b).

Definition lead4 (a b : ascii) : bool :=
  (byte_in 0xF0 0xF0 a && byte_in 0x90 0xBF b)
  || (byte_in 0xF1 0xF3 a && continuation b)
  || (byte_in 0xF4 0xF4 a && byte_in 0x80 0x8F b).

Fixpoint utf8_valid (s : string) : bool :=
  match s with
  | EmptyString => true
  | String a s1 =>
    if byte_in 0x00 0x7F a then utf8_valid s1
    else
      match s1 with
      | EmptyString => false
      | String b s2 =>
        if byte_in 0xC2 0xDF a then continuation b && utf8_valid s2
        else
          match s2 with
          | EmptyString => false
          | String c s3 =>
            if lead3 a b then continuation c && utf8_valid s3
            else
              match s3 with
              | EmptyString => false
              | String d s4 =>
                lead4 a b && continuation c && continuation d && utf8_valid s4
              end
          end
      end
  end.

Definition bytes_decode (b : string) : outcome string :=
  if utf8_valid b then Return b else Raise UnicodeDecodeError.

(** [{k.decode(): v.decode() for k, v in response.items()}] *)
Fixpoint decode_items (items : list (string * string))
    : outcome (list (string * string)) :=
  match items with
  | [] => Return []
  | (k, v) :: rest =>
    match bytes_decode k with
    | Raise e => Raise e
    | Return k' =>
      match bytes_decode v with
      | Raise e => Raise e
      | Return v' =>
        match decode_items rest with
        | Raise e => Raise e
        | Return rest' => Return ((k', v') :: rest')
        end
      end
    end
  end.

Definition decode_response (response : gmap string string)
    : outcome (gmap string string) :=
  match decode_items (map_to_list response) with
  | Return items => Return (list_to_map items)
  | Raise e => Raise e
  end.

(** ** [StateInformation] *)

(** The constructor [StateInformation], called with the decoded record as
    keyword arguments, under pydantic v1: the field [state] is
    [Optional] (absent means [None]) and is validated against [States].
    [forbid_extra] is the [Config.extra] policy of the base model
    [app/pkg/models/base.BaseModel], which is not part of the sources:
    [true] for [Extra.forbid], [false] for [ignore] or [allow]. *)
Definition StateInformation_init (forbid_extra : bool)
    (kwargs : gmap string string) : outcome StateInformation :=
  if forbid_extra && negb (bool_decide (dom kwargs ⊆ ({["state"]} : gset string)))
  then Raise ValidationError
  else
    match kwargs !! "state" with
    | None => Return (mkStateInformation None)
    | Some v =>
      match States_of_value v with
      | Some s => Return (mkStateInformation (Some s))
      | None => Raise ValidationError
      end
    end.

(** Modelled from the spec: [BaseModel.to_dict] of [app/pkg/models/base]
    is not part of the sources.  A state record holds the one field
    [state] ("the minimal state record"), written as the member's value;
    [exclude_none=True] drops the field when it is [None]. *)
Definition to_dict (si : StateInformation) : gmap string string :=
  match state si with
  | Some s => {[ "state" := States_value s ]}
  | None => ∅
  end.

(** ** The environment

    Everything the service cannot decide itself: which external call
    raises (given the calls made so far), what the Bot API and the
    completion API answer, how PostgreSQL orders rows, and the [extra]
    policy of the missing base model. *)
Record Env : Type := mkEnv {
  fails : list Call -> Call -> bool;
  forbid_extra : bool;
  telegram_api : list Call -> SendMessage -> TelegramAPISendMessageResponse;
  openai_answer : list string -> option string -> string;
  openai_recommend : list string -> list string -> list string
                     -> RecommendationResponse;
  order_by_name : list SupportedProgramResponse -> list SupportedProgramResponse;
  order_by_specific : list UserSpecificResponse -> list UserSpecificResponse
}.

(** An external call is recorded, then either raises without effect or
    runs its effect on the world. *)
Definition external (E : Env) {A} (c : Call) (effect : World -> A * World)
    : M A :=
  fun w =>
    let w1 := add_call c w in
    if fails E (calls w) c then (Raise (CollaboratorError c), w1)
    else let (a, w2) := effect w1 in (Return a, w2).

(** *** [app/pkg/clients/redis/client.py]

    Every method runs one pipeline; [hgetall] returns the list of the
    pipeline's results.  [HSET key mapping] sets the given fields of the
    hash and keeps its other fields. *)
Module RedisClient.
Section Client.

Context (E : Env).

Definition hmset (key : Z) (value : gmap string string) : M unit :=
  external E (RedisHSet key value)
    (fun w =>
       (tt, set_redis (fun r => <[key := value ∪ default ∅ (r !! key)]> r) w)).

Definition hgetall (key : Z) : M (list (gmap string string)) :=
  external E (RedisHGetAll key)
    (fun w => ([default ∅ (redis w !! key)], w)).

Definition hdel (key : Z) (fields : list string) : M unit :=
  external E (RedisHDel key fields)
    (fun w => (tt, set_redis
       (fun r => match r !! key with
                 | Some h => <[key := foldr delete h fields]> r
                 | None => r
                 end) w)).

Definition delete (key : Z) : M unit :=
  external E (RedisDelete key)
    (fun w => (tt, set_redis (base.delete key) w)).

End Client.
End RedisClient.

(** *** [app/pkg/clients/telegram/client.py] *)
Module TelegramClient.
Section Client.

Context (E : Env).

Definition send_message (chat_id : Z) (text : string)
    (parse_mode : option string) (reply_markup : option ReplyMarkup)
    : M TelegramAPISendMessageResponse :=
  let m := mkSendMessage chat_id text parse_mode reply_markup in
  fun w =>
    external E (TelegramSendMessage m)
      (fun w' => (telegram_api E (calls w) m, add_delivered m w')) w.

End Client.
End TelegramClient.

(** *** The repositories

    The decorator [collect_response] of the PostgreSQL layer is not part
    of the sources; as the services' [except EmptyResult] expects, a query
    that returns no row raises [EmptyResult]. *)
Module SupportedProgrammsRepository.
Section Repository.

Context (E : Env).

Definition read_all : M (list SupportedProgramResponse) :=
  let! rows := external E ReadAllProgramms
                 (fun w => (order_by_name E (supported_programms w), w)) in
  match rows with
  | [] => raise EmptyResult
  | _ => ret rows
  end.

End Repository.
End SupportedProgrammsRepository.

Module UserSpecificsRepository.
Section Repository.

Context (E : Env).

Definition create (cmd : UserSpecificResponse)
    : M UserSpecificResponse :=
  external E (InsertUserSpecific (us_user_id cmd) (specific cmd))
    (fun w => (cmd, add_user_specific cmd w)).

Definition read_listed (uid : Z) : M (list UserSpecificResponse) :=
  let! rows := external E (ReadListedUserSpecifics uid)
                 (fun w => (order_by_specific E
                              (filter (fun r => us_user_id r = uid) (user_specifics w)),
                            w)) in
  match rows with
  | [] => raise EmptyResult
  | _ => ret rows
  end.

End Repository.
End UserSpecificsRepository.

(** *** [app/internal/services/supported_programms.py] *)
Module SupportedProgrammsService.
Section Service.

Context (E : Env).

Definition get_programs : M (list SupportedProgramResponse) :=
  do! logger INFO "Fetching all supported programs." in
  try_except (SupportedProgrammsRepository.read_all E)
    (fun ex => match ex with
               | EmptyResult => ret []
               | _ => raise ex
               end).

End Service.
End SupportedProgrammsService.

(** *** [app/pkg/models/app/user_specific/repository.py]

    The commands validate [user_id : PositiveInt] and [specific : str]. *)
Definition CreateUserSpecificCommand (user_id : Z) (specific : option string)
    : outcome UserSpecificResponse :=
  match specific with
  | Some s =>
    if 0 <? user_id then Return (mkUserSpecific user_id s)
    else Raise ValidationError
  | None => Raise ValidationError
  end.

Definition ReadUserSpecificCommand (user_id : Z) : outcome Z :=
  if 0 <? user_id then Return user_id else Raise ValidationError.

(** *** [app/internal/services/user_specifics.py] *)
Module UserSpecificsService.
Section Service.

Context (E : Env).

Definition create_user_specific (user_id : Z) (specific : option string)
    : M UserSpecificResponse :=
  let! cmd := lift (CreateUserSpecificCommand user_id specific) in
  UserSpecificsRepository.create E cmd.

Definition get_user_specifics (user_id : Z) : M (list UserSpecificResponse) :=
  do! logger INFO "Fetching user specifics for user ID: %s" in
  try_except
    (let! cmd := lift (ReadUserSpecificCommand user_id) in
     UserSpecificsRepository.read_listed E cmd)
    (fun ex => match ex with
               | EmptyResult => ret []
               | _ => raise ex
               end).

End Service.
End UserSpecificsService.

(** *** [app/internal/services/openai.py]

    One completion request per call; any error is logged and re-raised. *)
Module OpenAIService.
Section Service.

Context (E : Env).

Definition answer_question (websites : list string) (question : option string)
    : M string :=
  do! logger INFO "Answering question based on websites." in
  try_except
    (external E (AnswerQuestion websites question)
       (fun w => (openai_answer E websites question, w)))
    (fun e =>
       do! logger ERROR "Error answering question: %s" in
       raise e).

Definition provide_recommendation (websites specifics programs : list string)
    : M RecommendationResponse :=
  do! logger INFO "Providing recommendation based on websites and specifics." in
  try_except
    (external E (ProvideRecommendation websites specifics programs)
       (fun w => (openai_recommend E websites specifics programs, w)))
    (fun e =>
       do! logger ERROR "Error providing recommendation: %s" in
       raise e).

End Service.
End OpenAIService.

(** *** [app/internal/services/fsm.py] *)

Definition UpdateHandler : Type :=
  Update -> M (list TelegramAPISendMessageResponse).

Definition StateValidator : Type := option StateInformation -> bool.

Record FSMRouter : Type := mkFSMRouter {
  handler : UpdateHandler;
  validator : StateValidator
}.

Module FSMService.
Section Service.

Context (E : Env).

(** [update.message.from_.id if update.message.from_ else
    update.message.chat.id]; reading an attribute of [None] raises. *)
Definition client_id_of (update : Update) : outcome Z :=
  match message update with
  | None => Raise AttributeError
  | Some m =>
    Return (match from_ m with
            | Some u => user_id u
            | None => chat_id (chat m)
            end)
  end.

(** [update.message.text] *)
Definition message_text (update : Update) : outcome (option string) :=
  match message update with
  | None => Raise AttributeError
  | Some m => Return (text m)
  end.

Definition return_keyboard : ReplyMarkup :=
  ReplyKeyboardMarkup [[mkKeyboardButton "Вернуться в главное меню"]] true true.

Definition main_menu_keyboard : ReplyMarkup :=
  ReplyKeyboardMarkup
    [[mkKeyboardButton "❓ Задать вопрос о программе"];
     [mkKeyboardButton "❗️ Получить рекоммендацию"]] true true.

Definition get_client_state_information (client_id : Z)
    : M (option StateInformation) :=
  let! pipeline := RedisClient.hgetall E client_id in
  match pipeline with
  | [] => raise IndexError
  | response :: _ =>
    if decide (response = ∅) then ret None
    else
      try_except
        (let! decoded_response := lift (decode_response response) in
         let! state_information :=
           lift (StateInformation_init (forbid_extra E) decoded_response) in
         let keys_to_delete : list string := [] in
         do! (match keys_to_delete with
              | [] => ret tt
              | _ => RedisClient.hdel E client_id keys_to_delete
              end) in
         ret (Some state_information))
        (fun ex =>
           match ex with
           | ValidationError =>
             do! logger ERROR
                   "Unexpected error when parsing redis hashmap: %s" in
             ret None
           | _ => raise ex
           end)
  end.

Definition determine_update_type (update : Update) : outcome UpdateTypes :=
  match message update with
  | Some m =>
    match text m with
    | Some (String _ _) => Return TEXT
    | _ => Raise (ValueError "Unexpected update type processing.")
    end
  | None => Raise (ValueError "Unexpected update type processing.")
  end.

Definition process_return_to_main_menu : UpdateHandler := fun update =>
  let! client_id := lift (client_id_of update) in
  do! RedisClient.hmset E client_id
        (to_dict (mkStateInformation (Some MAIN_MENU))) in
  let! r := TelegramClient.send_message E client_id
              "С чем я могу помочь?"
              None (Some main_menu_keyboard) in
  ret [r].

Definition process_start_command : UpdateHandler := fun update =>
  let! client_id := lift (client_id_of update) in
  do! RedisClient.delete E client_id in
  do! RedisClient.hmset E client_id
        (to_dict (mkStateInformation (Some MAIN_MENU))) in
  let! supported_programs := SupportedProgrammsService.get_programs E in
  let! r := TelegramClient.send_message E client_id
              "Привет!
Я помогу тебе с выбором программы для поступления в магистратуру ИТМО"
              None
              (Some (InlineKeyboardMarkup
                 (map (fun program =>
                         [mkInlineKeyboardButton (name program)
                                                 (website_url program)])
                      supported_programs))) in
  let responses := [r] in
  let! rest := process_return_to_main_menu update in
  ret (responses ++ rest)%list.

Definition process_question_about_program : UpdateHandler := fun update =>
  let! client_id := lift (client_id_of update) in
  do! RedisClient.hmset E client_id
        (to_dict (mkStateInformation (Some QUESTIONS))) in
  let! r := TelegramClient.send_message E client_id
              "Задай свой вопрос о программе, и я постараюсь на него ответить!"
              None (Some return_keyboard) in
  ret [r].

Definition process_question : UpdateHandler := fun update =>
  let! client_id := lift (client_id_of update) in
  let! question := lift (message_text update) in
  do! logger INFO "Received question: %s" in
  do! TelegramClient.send_message E client_id
        "Пожалуйста, подожди, я ищу ответ на твой вопрос..."
        None (Some return_keyboard) in
  let! programs := SupportedProgrammsService.get_programs E in
  let! response := OpenAIService.answer_question E
                     (map website_url programs) question in
  let! r := TelegramClient.send_message E client_id response
              (Some "Markdown") None in
  ret [r].

Definition process_get_recommendation : UpdateHandler := fun update =>
  let! client_id := lift (client_id_of update) in
  do! RedisClient.hmset E client_id
        (to_dict (mkStateInformation (Some RECOMMENDATION))) in
  let! r := TelegramClient.send_message E client_id
              "Расскажи мне про себя и я постараюсь подобрать тебе программу, которая тебе подойдет!"
              None (Some return_keyboard) in
  ret [r].

Definition process_recommendation : UpdateHandler := fun update =>
  let! client_id := lift (client_id_of update) in
  let! specific_text := lift (message_text update) in
  do! UserSpecificsService.create_user_specific E client_id specific_text in
  let! user_specifics :=
    UserSpecificsService.get_user_specifics E client_id in
  let! programs := SupportedProgrammsService.get_programs E in
  let! response := OpenAIService.provide_recommendation E
                     (map website_url programs)
                     (map specific user_specifics)
                     (map name programs) in
  do! TelegramClient.send_message E client_id
        "Пожалуйста, подожди, я ищу подходящую для тебя программу..."
        None (Some return_keyboard) in
  let! r1 := TelegramClient.send_message E client_id (recommendation response)
               (Some "Markdown") None in
  let! r2 := TelegramClient.send_message E client_id
               ("Рекомендованная программа: " +:+ recommended_program response)
               (Some "Markdown") None in
  ret [r1; r2].

(** The routing tables built by [__init__]. *)
Definition text_routing : gmap string FSMRouter :=
  {[ "/start" := mkFSMRouter process_start_command (fun _ => true);
     "❓ Задать вопрос о программе" :=
       mkFSMRouter process_question_about_program (fun _ => true);
     "❗️ Получить рекоммендацию" :=
       mkFSMRouter process_get_recommendation (fun _ => true);
     "Вернуться в главное меню" :=
       mkFSMRouter process_return_to_main_menu (fun _ => true) ]}.

Definition state_routing : gmap string FSMRouter :=
  {[ States_value QUESTIONS := mkFSMRouter process_question (fun _ => true);
     States_value RECOMMENDATION :=
       mkFSMRouter process_recommendation (fun _ => true) ]}.

Definition process_message_update (update : Update) : M UpdateHandler :=
  let! client_id := lift (client_id_of update) in
  let! client_state := get_client_state_information client_id in
  let! update_text := lift (message_text update) in
  let template_message_router := update_text ≫= (text_routing !!.) in
  match template_message_router with
  | Some router =>
    if validator router client_state then ret (handler router)
    else ret process_return_to_main_menu
  | None =>
    match client_state with
    | None => raise AttributeError
    | Some state_information =>
      let template_state_router :=
        state state_information ≫= (fun s => state_routing !! States_value s) in
      match template_state_router with
      | Some router =>
        if validator router client_state then ret (handler router)
        else ret process_return_to_main_menu
      | None => ret process_return_to_main_menu
      end
    end
  end.

Definition process_update_based_on_its_type (update : Update)
    (update_type : UpdateTypes) : M UpdateHandler :=
  match update_type with
  | TEXT => process_message_update update
  end.

(** The body of the outer [try] of [process_update]. *)
Definition process_update_attempt : UpdateHandler := fun update =>
  let! update_type := lift (determine_update_type update) in
  do! logger INFO "Processing update: %s of type %s." in
  let! function := process_update_based_on_its_type update update_type in
  function update.

(** The outer [except Exception] branch of [process_update], with its own
    inner [try]. *)
Definition process_update_recovery : UpdateHandler := fun update =>
  try_except
    (do! logger ERROR "Unexpected error when processing update: %s" in
     process_return_to_main_menu update)
    (fun inner_ex =>
       do! logger ERROR
             "While handling previous exception, another was raised: %s" in
       ret []).

Definition process_update : UpdateHandler := fun update =>
  let! result := try_except (process_update_attempt update)
                   (fun ex => process_update_recovery update) in
  do! logger INFO "Processing result: %s." in
  ret result.

End Service.
End FSMService.

Export FSMService.


(** *** [app/internal/routes/webhook.py]

    The route validates the raw JSON body against [Update] and hands the
    model to the service.  The validation itself, pydantic over the field
    declarations of [request.py], is the parameter [Update_validate]; its
    result is dropped with the early [return] when it raises
    [ValidationError]. *)
Module Webhook.
Section Route.

Context (E : Env) {Raw : Type} (Update_validate : Raw -> outcome Update).

Definition handle_client_bot_update (update : Raw) : M unit :=
  let! update_model :=
    try_except
      (let! model := lift (Update_validate update) in ret (Some model))
      (fun ex => match ex with
                 | ValidationError => ret None
                 | _ => raise ex
                 end) in
  match update_model with
  | None => ret tt
  | Some update_model =>
    do! FSMService.process_update E update_model in
    ret tt
  end.

End Route.
End Webhook.

(** *** [app/pkg/clients/openai/handlers/collect_response.py]

    The decorator turns the HTTP response of a request into the annotated
    model or into a [ClientExceptionFactory] error.  A response is its
    status code, its text and what [response.json()] gives; validating the
    decoded body ([pydantic.parse_obj_as]) is the parameter
    [parse_obj_as]. *)
Module OpenaiHandlers.

Record Response (J : Type) : Type := mkHttpResponse {
  status_code : Z;
  response_text : string;
  response_json : outcome J
}.
Arguments mkHttpResponse {J} _ _ _.
Arguments status_code {J} _.
Arguments response_text {J} _.
Arguments response_json {J} _.

(** The [details] of a [ClientExceptionFactory]. *)
Inductive Details : Type :=
| NoDetails
| DetailsText (s : string)
| DetailsException (e : exn).

(** What the decorated function gives: the model, a
    [ClientExceptionFactory], or an exception the decorator lets through. *)
Inductive collected (A : Type) : Type :=
| Model (model : A)
| ClientExceptionFactory (message : string) (details : Details)
| LetThrough (e : exn).
Arguments Model {A} model.
Arguments ClientExceptionFactory {A} message details.
Arguments LetThrough {A} e.

Definition collect_response {J A : Type} (parse_obj_as : J -> outcome A)
    (fn : outcome (Response J)) : collected A :=
  match fn with
  | Raise exc =>
    ClientExceptionFactory "Openai client exception handled!"
                           (DetailsException exc)
  | Return response =>
    if bool_decide (status_code response = 403 \/ status_code response = 409)
    then ClientExceptionFactory (response_text response)
                                (DetailsText "Openai client blocked.")
    else if bool_decide (status_code response / 100 <> 2)
    then ClientExceptionFactory (response_text response) NoDetails
    else
      match response_json response with
      | Raise e => LetThrough e
      | Return body =>
        match parse_obj_as body with
        | Return model => Model model
        | Raise ValidationError =>
          ClientExceptionFactory (response_text response)
                                 (DetailsException ValidationError)
        | Raise e => LetThrough e
        end
      end
  end.

End OpenaiHandlers.
(** ** Vocabulary of the properties *)

(** No external call fails, whatever was called before. *)
Definition healthy (E : Env) : Prop := forall h c, fails E h c = false.

(** The record stored for [cid] decodes and validates to state [s]. *)
Definition stored_state_is (E : Env) (w : World) (cid : Z) (s : States)
    : Prop :=
  exists h d,
    redis w !! cid = Some h /\
    decode_response h = Return d /\
    StateInformation_init (forbid_extra E) d
    = Return (mkStateInformation (Some s)).

Definition is_truthy (t : option string) : bool :=
  match t with
  | Some (String _ _) => true
  | _ => false
  end.

(** The [AnswerQuestion] requests among a list of calls. *)
Definition answer_question_calls (cs : list Call)
    : list (list string * option string) :=
  omap (fun c => match c with
                 | AnswerQuestion websites question => Some (websites, question)
                 | _ => None
                 end) cs.

(** The client identifier of a message: the sender if present, else the
    chat. *)
Definition sender (m : Message) : Z :=
  match from_ m with
  | Some u => user_id u
  | None => chat_id (chat m)
  end.

Definition wait_for_answer (cid : Z) : SendMessage :=
  mkSendMessage cid "Пожалуйста, подожди, я ищу ответ на твой вопрос..."
                None (Some return_keyboard).

Definition wait_for_recommendation (cid : Z) : SendMessage :=
  mkSendMessage cid "Пожалуйста, подожди, я ищу подходящую для тебя программу..."
                None (Some return_keyboard).

Definition main_menu_message (cid : Z) : SendMessage :=
  mkSendMessage cid "С чем я могу помочь?" None (Some main_menu_keyboard).

(** The handler resolution as the spec words it: a literal trigger of the
    text-routing table first, then the current state in the state-routing
    table, else the default handler; a rejecting validator also gives the
    default handler. *)
Definition resolve_handler_spec (E : Env) (t : string)
    (client_state : option StateInformation) : UpdateHandler :=
  match text_routing E !! t with
  | Some router =>
    if validator router client_state then handler router
    else process_return_to_main_menu E
  | None =>
    match client_state ≫= state with
    | Some s =>
      match state_routing E !! States_value s with
      | Some router =>
        if validator router client_state then handler router
        else process_return_to_main_menu E
      | None => process_return_to_main_menu E
      end
    | None => process_return_to_main_menu E
    end
  end.

(** What [process_update] does once handler [h] is selected: run it, on any
    error run the recovery, then log the result. *)
Definition run_selected (E : Env) (h : UpdateHandler) : UpdateHandler :=
  fun update =>
    let! result := try_except (h update)
                     (fun _ => process_update_recovery E update) in
    do! logger INFO "Processing result: %s." in
    ret result.

(** What [process_update] does when no handler could be selected: the
    recovery alone, then the result log. *)
Definition run_recovery (E : Env) : UpdateHandler :=
  fun update =>
    let! result := process_update_recovery E update in
    do! logger INFO "Processing result: %s." in
    ret result.

(** An update the classifier accepts: it has a message whose text is
    non-empty. *)
Definition has_text (update : Update) : bool :=
  match message update with
  | Some m => is_truthy (text m)
  | None => false
  end.

(** The handlers that write a state without deleting first, with the state
    each writes. *)
Definition state_writers (E : Env) : list (UpdateHandler * States) :=
  [(process_return_to_main_menu E, MAIN_MENU);
   (process_question_about_program E, QUESTIONS);
   (process_get_recommendation E, RECOMMENDATION)].

(** The six handlers, each with the number of messages it sends whose send
    result it does not return (the interim "please wait" message). *)
Definition handlers (E : Env) : list (UpdateHandler * nat) :=
  [(process_start_command E, 0%nat);
   (process_return_to_main_menu E, 0%nat);
   (process_question_about_program E, 0%nat);
   (process_question E, 1%nat);
   (process_get_recommendation E, 0%nat);
   (process_recommendation E, 1%nat)].

(** The interim "please wait" messages, to whichever chat. *)
Definition is_interim (msg : SendMessage) : Prop :=
  msg = wait_for_answer (sm_chat_id msg) \/
  msg = wait_for_recommendation (sm_chat_id msg).

(** Record [r] is the Bot API's answer to message [msg], sent by a call
    recorded in the call trace of [w']: [h] is the trace before that call. *)
Definition answers (E : Env) (w' : World)
    (r : TelegramAPISendMessageResponse) (msg : SendMessage) : Prop :=
  exists h,
    r = telegram_api E h msg /\
    (h ++ [TelegramSendMessage msg])%list `prefix_of` calls w'.

Definition greeting (cid : Z) (programs : list SupportedProgramResponse)
    : SendMessage :=
  mkSendMessage cid
    "Привет!
Я помогу тебе с выбором программы для поступления в магистратуру ИТМО"
    None
    (Some (InlineKeyboardMarkup
       (map (fun program =>
               [mkInlineKeyboardButton (name program) (website_url program)])
            programs))).

Definition main_menu_record : gmap string string :=
  {[ "state" := "main_menu" ]}.

(** A computation that leaves the outbox as it is, whether it returns or
    raises. *)
Definition sends_nothing {A} (m : M A) : Prop :=
  forall w, delivered (m w).2 = delivered w.

(** ** Concrete environments and inputs used by the examples *)

(** The Bot API accepts every message and echoes it back. *)
Definition echo_api (h : list Call) (m : SendMessage)
    : TelegramAPISendMessageResponse :=
  mkResponse true
    (Some (mkMessage (Z.of_nat (length h)) None (mkChat (sm_chat_id m))
                     (Some (sm_text m))))
    None None.

(** No collaborator ever fails. *)
Definition quiet : Env :=
  mkEnv (fun _ _ => false) false echo_api
        (fun _ _ => "Я не знаю")
        (fun _ _ _ => mkRecommendation "Я не знаю" "AI")
        (fun rows => rows) (fun rows => rows).

(** The completion API is down; every other collaborator answers. *)
Definition openai_down : Env :=
  mkEnv (fun _ c => match c with
                    | AnswerQuestion _ _ | ProvideRecommendation _ _ _ => true
                    | _ => false
                    end)
        false echo_api
        (fun _ _ => "Я не знаю")
        (fun _ _ _ => mkRecommendation "Я не знаю" "AI")
        (fun rows => rows) (fun rows => rows).

(** Every collaborator is down. *)
Definition outage : Env :=
  mkEnv (fun _ _ => true) false echo_api
        (fun _ _ => "Я не знаю")
        (fun _ _ _ => mkRecommendation "Я не знаю" "AI")
        (fun rows => rows) (fun rows => rows).

Definition catalog : list SupportedProgramResponse :=
  [mkProgram "AI" "https://abit.itmo.ru/program/master/ai"].

Definition world_with (store : gmap Z (gmap string string)) : World :=
  mkWorld store [] catalog [] [] [].

Definition text_update (uid : Z) (t : string) : Update :=
  mkUpdate 1 (Some (mkMessage 10 (Some (mkUser uid)) (mkChat uid) (Some t))).

(** An update that carries no message at all. *)
Definition bare_update : Update := mkUpdate 1 None.

(** An update whose message has no text (a photo, a sticker). *)
Definition photo_update (uid : Z) : Update :=
  mkUpdate 1 (Some (mkMessage 10 (Some (mkUser uid)) (mkChat uid) None)).

(** Session stores: user 42 in a given state, and the same with one more
    field in the record. *)
Definition store_in (s : States) : gmap Z (gmap string string) :=
  {[ 42 := {[ "state" := States_value s ]} ]}.

Definition store_with_draft : gmap Z (gmap string string) :=
  {[ 42 := {[ "state" := "questions"; "draft" := "x" ]} ]}.

(** A record whose state value is the single byte 0xFF, which is not
    UTF-8. *)
Definition store_undecodable : gmap Z (gmap string string) :=
  {[ 42 := {[ "state" := String (ascii_of_nat 255) EmptyString ]} ]}.

(** ** Vocabulary of the further properties *)

(** The client an update belongs to, when it has a message. *)
Definition client_of (update : Update) : option Z :=
  sender <$> message update.

(** A computation whose final world is related to its initial world by
    [R], whether it returns or raises. *)
Definition respects (R : World -> World -> Prop) {A} (m : M A) : Prop :=
  forall w, R w (m w).2.

(** World [w'] differs from [w] only in what belongs to client [who]: the
    client's session record, messages sent to the client, notes of the
    client; the catalog is the same. *)
Record touches_only (who : option Z) (w w' : World) : Prop := mkTouchesOnly {
  other_records : forall k, who <> Some k -> redis w' !! k = redis w !! k;
  new_messages :
    exists sent,
      delivered w' = (delivered w ++ sent)%list /\
      Forall (fun x => who = Some (sm_chat_id x)) sent;
  new_notes :
    exists notes,
      user_specifics w' = (user_specifics w ++ notes)%list /\
      Forall (fun r => who = Some (us_user_id r)) notes;
  same_catalog : supported_programms w' = supported_programms w
}.

(** A session store as the service itself writes it: every record is the
    single field [state] holding the value of a member of [States]. *)
Definition service_written (store : gmap Z (gmap string string)) : Prop :=
  forall k h, store !! k = Some h ->
              exists s, h = {[ "state" := States_value s ]}.

Definition keeps_service_written (w w' : World) : Prop :=
  service_written (redis w) -> service_written (redis w').

Definition same_store (w w' : World) : Prop := redis w' = redis w.

(** The record of a client in state [current], if any. *)
Definition record_of (current : option States) : option (gmap string string) :=
  (fun s => {[ "state" := States_value s ]}) <$> current.

(** The state a text message leads to, read off the two routing tables
    and the states their handlers write. *)
Definition next_state (t : string) (current : option States) : States :=
  if decide (t = "/start") then MAIN_MENU
  else if decide (t = "❓ Задать вопрос о программе") then QUESTIONS
  else if decide (t = "❗️ Получить рекоммендацию") then RECOMMENDATION
  else if decide (t = "Вернуться в главное меню") then MAIN_MENU
  else
    match current with
    | Some QUESTIONS => QUESTIONS
    | Some RECOMMENDATION => RECOMMENDATION
    | _ => MAIN_MENU
    end.

Definition ask_button : string := "❓ Задать вопрос о программе".

(** Validation used by the examples of the webhook route: the raw body is
    either a well-formed update or not. *)
Definition validate_option (raw : option Update) : outcome Update :=
  match raw with
  | Some update => Return update
  | None => Raise ValidationError
  end.

(** The Bot API is down; every other collaborator answers. *)
Definition telegram_down : Env :=
  mkEnv (fun _ c => match c with
                    | TelegramSendMessage _ => true
                    | _ => false
                    end)
        false echo_api
        (fun _ _ => "Я не знаю")
        (fun _ _ _ => mkRecommendation "Я не знаю" "AI")
        (fun rows => rows) (fun rows => rows).

(** Two clients, 42 in the main menu and 7 asking questions. *)
Definition store_two : gmap Z (gmap string string) :=
  {[ 42 := {[ "state" := "main_menu" ]}; 7 := {[ "state" := "questions" ]} ]}.

(** An HTTP response with status 200 whose body is the answer itself. *)
Definition ok_response : OpenaiHandlers.Response string :=
  OpenaiHandlers.mkHttpResponse 200 "Я не знаю" (Return "Я не знаю").

(** ** Properties *)

Section Properties.

Context (E : Env).

(** *** Basic facts about the monad and the external calls *)

Lemma external_ok {A} (c : Call) (effect : World -> A * World) (w : World) :
  fails E (calls w) c = false ->
  external E c effect w =
    (Return (effect (add_call c w)).1, (effect (add_call c w)).2).
Proof.
  intros Hok. unfold external. rewrite Hok.
  by destruct (effect (add_call c w)).
Qed.

Lemma external_failed {A} (c : Call) (effect : World -> A * World) (w : World) :
  fails E (calls w) c = true ->
  external E c effect w = (Raise (CollaboratorError c), add_call c w).
Proof. intros Hko. unfold external. by rewrite Hko. Qed.

Lemma try_except_total {A} (body : M A) (handler : exn -> M A) (w : World) :
  (forall e w1, exists a w2, handler e w1 = (Return a, w2)) ->
  exists a w2, try_except body handler w = (Return a, w2).
Proof.
  intros Hh. unfold try_except.
  destruct (body w) as [[a|e] w1]; eauto.
Qed.

Lemma decode_items_id (items decoded : list (string * string)) :
  decode_items items = Return decoded -> decoded = items.
Proof.
  revert decoded. induction items as [|[k v] rest IH]; intros decoded; simpl.
  - congruence.
  - unfold bytes_decode.
    destruct (utf8_valid k); [|discriminate].
    destruct (utf8_valid v); [|discriminate].
    destruct (decode_items rest) as [rest'|]; [|discriminate].
    intros [= <-]. by rewrite (IH rest').
Qed.

Lemma decode_response_id (response decoded : gmap string string) :
  decode_response response = Return decoded -> decoded = response.
Proof.
  unfold decode_response.
  destruct (decode_items (map_to_list response)) as [items|] eqn:Hd;
    [|discriminate].
  intros [= <-]. apply decode_items_id in Hd as ->.
  apply list_to_map_to_list.
Qed.

(** *** C1: the double catch of [process_update] *)

Lemma process_update_cases (update : Update) (w : World) :
  process_update E update w =
    match process_update_attempt E update w with
    | (Return result, w1) =>
      (Return result, add_log (INFO, "Processing result: %s.") w1)
    | (Raise _, w1) =>
      match process_return_to_main_menu E update
              (add_log (ERROR, "Unexpected error when processing update: %s") w1)
      with
      | (Return result, w2) =>
        (Return result, add_log (INFO, "Processing result: %s.") w2)
      | (Raise _, w2) =>
        (Return [],
         add_log (INFO, "Processing result: %s.")
           (add_log (ERROR, "While handling previous exception, another was raised: %s")
              w2))
      end
    end.
Proof.
  unfold process_update, process_update_recovery, bind, try_except, logger, ret.
  destruct (process_update_attempt E update w) as [[result|e] w1]; [done|].
  by destruct (process_return_to_main_menu E update _) as [[result|e2] w2].
Qed.

Lemma process_update_returns (update : Update) (w : World) :
  exists result w', process_update E update w = (Return result, w').
Proof.
  rewrite process_update_cases.
  destruct (process_update_attempt E update w) as [[result|e] w1]; [eauto|].
  destruct (process_return_to_main_menu E update _) as [[result|e2] w2]; eauto.
Qed.

(** C1.  [process_update] returns a list for every update, world and
    pattern of collaborator failures: when the attempt (classification,
    routing, selected handler) returns, that is the result; when it raises,
    the error is logged and the default handler is run, and its result is
    the result; when the default handler raises too, the result is the
    empty list. *)
Theorem process_update_never_raises (update : Update) (w : World) :
  (exists result w', process_update E update w = (Return result, w')) /\
  process_update E update w =
    match process_update_attempt E update w with
    | (Return result, w1) =>
      (Return result, add_log (INFO, "Processing result: %s.") w1)
    | (Raise _, w1) =>
      match process_return_to_main_menu E update
              (add_log (ERROR, "Unexpected error when processing update: %s") w1)
      with
      | (Return result, w2) =>
        (Return result, add_log (INFO, "Processing result: %s.") w2)
      | (Raise _, w2) =>
        (Return [],
         add_log (INFO, "Processing result: %s.")
           (add_log (ERROR, "While handling previous exception, another was raised: %s")
              w2))
      end
    end.
Proof.
  split; [apply process_update_returns|apply process_update_cases].
Qed.

(** *** The constructor [StateInformation] and the steps of the monad *)

Lemma StateInformation_init_empty (b : bool) :
  StateInformation_init b ∅ = Return (mkStateInformation None).
Proof. by destruct b. Qed.

Lemma StateInformation_init_raises (b : bool) (kwargs : gmap string string) (e : exn) :
  StateInformation_init b kwargs = Raise e -> e = ValidationError.
Proof.
  unfold StateInformation_init.
  destruct (b && _); [congruence|].
  destruct (kwargs !! "state") as [v|]; [|discriminate].
  destruct (States_of_value v); [discriminate|congruence].
Qed.

Lemma bind_Return {A B} (m : M A) (k : A -> M B) (w w1 : World) (a : A) :
  m w = (Return a, w1) -> bind m k w = k a w1.
Proof. intros Hm. unfold bind. by rewrite Hm. Qed.

Lemma bind_Raise {A B} (m : M A) (k : A -> M B) (w w1 : World) (e : exn) :
  m w = (Raise e, w1) -> bind m k w = (Raise e, w1).
Proof. intros Hm. unfold bind. by rewrite Hm. Qed.

Ltac mstep lem := erewrite bind_Return by (apply lem; eassumption).

Ltac mlift := unfold lift; erewrite bind_Return by reflexivity.

Ltac world_projections :=
  cbn [redis user_specifics supported_programms delivered calls log
       set_redis add_user_specific add_delivered add_call add_log].

(** *** Routing: what [process_message_update] returns *)

Lemma determine_update_type_text (update : Update) (m : Message) (t : string) :
  message update = Some m -> text m = Some t -> t <> "" ->
  determine_update_type update = Return TEXT.
Proof.
  intros Hm Ht Hne. unfold determine_update_type. rewrite Hm, Ht.
  by destruct t.
Qed.

Lemma process_message_update_resolved (update : Update) (m : Message)
    (t : string) (w0 w1 : World) (client_state : option StateInformation) :
  message update = Some m -> text m = Some t ->
  get_client_state_information E (sender m) w0 = (Return client_state, w1) ->
  process_message_update E update w0 =
    match text_routing E !! t, client_state with
    | None, None => (Raise AttributeError, w1)
    | _, _ => (Return (resolve_handler_spec E t client_state), w1)
    end.
Proof.
  intros Hm Ht Hst.
  unfold process_message_update, resolve_handler_spec, client_id_of, message_text.
  rewrite Hm, Ht. unfold lift.
  erewrite bind_Return by reflexivity.
  erewrite bind_Return by exact Hst.
  erewrite bind_Return by reflexivity.
  cbn [mbind option_bind].
  destruct (text_routing E !! t) as [router|]; [by destruct (validator _ _)|].
  destruct client_state as [si|]; [|done].
  cbn [mbind option_bind].
  destruct (state si) as [s|]; cbn [mbind option_bind]; [|done].
  destruct (state_routing E !! States_value s) as [router|]; [|done].
  by destruct (validator _ _).
Qed.

Lemma process_update_attempt_text (update : Update) (m : Message) (t : string)
    (w : World) :
  message update = Some m -> text m = Some t -> t <> "" ->
  process_update_attempt E update w =
    match process_message_update E update
            (add_log (INFO, "Processing update: %s of type %s.") w) with
    | (Return function, w2) => function update w2
    | (Raise e, w2) => (Raise e, w2)
    end.
Proof.
  intros Hm Ht Hne. unfold process_update_attempt.
  rewrite (determine_update_type_text _ _ _ Hm Ht Hne).
  unfold lift. erewrite bind_Return by reflexivity.
  erewrite bind_Return by reflexivity.
  reflexivity.
Qed.

Lemma process_update_selected (update : Update) (m : Message)
    (t : string) (w w1 : World) (client_state : option StateInformation) :
  message update = Some m -> text m = Some t -> t <> "" ->
  get_client_state_information E (sender m)
    (add_log (INFO, "Processing update: %s of type %s.") w)
  = (Return client_state, w1) ->
  text_routing E !! t <> None \/ client_state <> None ->
  process_message_update E update
    (add_log (INFO, "Processing update: %s of type %s.") w)
  = (Return (resolve_handler_spec E t client_state), w1) /\
  process_update E update w
  = run_selected E (resolve_handler_spec E t client_state) update w1.
Proof.
  intros Hm Ht Hne Hst Hsome.
  pose proof (process_message_update_resolved _ _ _ _ _ _ Hm Ht Hst) as Hres.
  assert (Hsel : process_message_update E update
                   (add_log (INFO, "Processing update: %s of type %s.") w)
                 = (Return (resolve_handler_spec E t client_state), w1)).
  { rewrite Hres. destruct (text_routing E !! t); [done|].
    destruct client_state; [done|]. by destruct Hsome. }
  split; [exact Hsel|].
  unfold process_update, run_selected, bind, try_except.
  by rewrite (process_update_attempt_text _ _ _ _ Hm Ht Hne), Hsel.
Qed.

Lemma process_update_unrouted (update : Update) (m : Message)
    (t : string) (w w1 : World) :
  message update = Some m -> text m = Some t -> t <> "" ->
  get_client_state_information E (sender m)
    (add_log (INFO, "Processing update: %s of type %s.") w)
  = (Return None, w1) ->
  text_routing E !! t = None ->
  resolve_handler_spec E t None = process_return_to_main_menu E /\
  process_update E update w = run_recovery E update w1.
Proof.
  intros Hm Ht Hne Hst Hnone.
  pose proof (process_message_update_resolved _ _ _ _ _ _ Hm Ht Hst) as Hres.
  split.
  - unfold resolve_handler_spec. by rewrite Hnone.
  - rewrite Hnone in Hres.
    unfold process_update, run_recovery, bind, try_except.
    by rewrite (process_update_attempt_text _ _ _ _ Hm Ht Hne), Hres.
Qed.

(** *** The collaborators when nothing fails *)

Section Healthy.

Hypothesis Hhealthy : healthy E.

Lemma redis_hgetall_healthy (key : Z) (w : World) :
  RedisClient.hgetall E key w
  = (Return [default ∅ (redis w !! key)], add_call (RedisHGetAll key) w).
Proof. unfold RedisClient.hgetall. by rewrite external_ok. Qed.

Lemma redis_hmset_healthy (key : Z) (value : gmap string string) (w : World) :
  RedisClient.hmset E key value w
  = (Return tt,
     set_redis (fun r => <[key := value ∪ default ∅ (r !! key)]> r)
       (add_call (RedisHSet key value) w)).
Proof. unfold RedisClient.hmset. by rewrite external_ok. Qed.

Lemma redis_delete_healthy (key : Z) (w : World) :
  RedisClient.delete E key w
  = (Return tt, set_redis (delete key) (add_call (RedisDelete key) w)).
Proof. unfold RedisClient.delete. by rewrite external_ok. Qed.

Lemma send_message_healthy (cid : Z) (t : string) (pm : option string)
    (rm : option ReplyMarkup) (w : World) :
  TelegramClient.send_message E cid t pm rm w
  = (Return (telegram_api E (calls w) (mkSendMessage cid t pm rm)),
     add_delivered (mkSendMessage cid t pm rm)
       (add_call (TelegramSendMessage (mkSendMessage cid t pm rm)) w)).
Proof. unfold TelegramClient.send_message. by rewrite external_ok. Qed.

Lemma get_programs_healthy (w : World) :
  SupportedProgrammsService.get_programs E w
  = (Return (order_by_name E (supported_programms w)),
     add_call ReadAllProgramms
       (add_log (INFO, "Fetching all supported programs.") w)).
Proof.
  unfold SupportedProgrammsService.get_programs, SupportedProgrammsRepository.read_all, bind, logger, try_except.
  rewrite external_ok by apply Hhealthy. cbn.
  by destruct (order_by_name E (supported_programms w)).
Qed.

Lemma answer_question_healthy (websites : list string) (question : option string)
    (w : World) :
  OpenAIService.answer_question E websites question w
  = (Return (openai_answer E websites question),
     add_call (AnswerQuestion websites question)
       (add_log (INFO, "Answering question based on websites.") w)).
Proof.
  unfold OpenAIService.answer_question, bind, logger, try_except.
  by rewrite external_ok by apply Hhealthy.
Qed.

Lemma provide_recommendation_healthy (websites specifics programs : list string)
    (w : World) :
  OpenAIService.provide_recommendation E websites specifics programs w
  = (Return (openai_recommend E websites specifics programs),
     add_call (ProvideRecommendation websites specifics programs)
       (add_log (INFO, "Providing recommendation based on websites and specifics.") w)).
Proof.
  unfold OpenAIService.provide_recommendation, bind, logger, try_except.
  by rewrite external_ok by apply Hhealthy.
Qed.

Lemma create_user_specific_healthy (uid : Z) (t : string) (w : World) :
  0 < uid ->
  UserSpecificsService.create_user_specific E uid (Some t) w
  = (Return (mkUserSpecific uid t),
     add_user_specific (mkUserSpecific uid t)
       (add_call (InsertUserSpecific uid t) w)).
Proof.
  intros Hpos.
  unfold UserSpecificsService.create_user_specific, bind, lift, CreateUserSpecificCommand,
    UserSpecificsRepository.create.
  replace (0 <? uid) with true by (symmetry; by apply Z.ltb_lt).
  by rewrite external_ok by apply Hhealthy.
Qed.

Lemma get_user_specifics_healthy (uid : Z) (w : World) :
  0 < uid ->
  UserSpecificsService.get_user_specifics E uid w
  = (Return (order_by_specific E
               (filter (fun r => us_user_id r = uid) (user_specifics w))),
     add_call (ReadListedUserSpecifics uid)
       (add_log (INFO, "Fetching user specifics for user ID: %s") w)).
Proof.
  intros Hpos.
  unfold UserSpecificsService.get_user_specifics, UserSpecificsRepository.read_listed, bind, lift, logger,
    try_except, ReadUserSpecificCommand.
  replace (0 <? uid) with true by (symmetry; by apply Z.ltb_lt).
  rewrite external_ok by apply Hhealthy. cbn.
  by destruct (order_by_specific E _).
Qed.

Lemma get_client_state_information_stored (cid : Z) (s : States) (w : World) :
  stored_state_is E w cid s ->
  get_client_state_information E cid w
  = (Return (Some (mkStateInformation (Some s))), add_call (RedisHGetAll cid) w).
Proof.
  intros (h & d & Hh & Hdec & Hinit).
  pose proof (decode_response_id _ _ Hdec) as ->.
  unfold get_client_state_information.
  rewrite (bind_Return _ _ _ _ _ (redis_hgetall_healthy cid w)).
  rewrite Hh. cbn [default from_option]. unfold id.
  destruct (decide (h = ∅)) as [->|_].
  { rewrite StateInformation_init_empty in Hinit. discriminate. }
  unfold try_except, bind, lift, ret. cbv beta. by rewrite Hdec, Hinit.
Qed.


Lemma client_id_of_message (update : Update) (m : Message) :
  message update = Some m -> client_id_of update = Return (sender m).
Proof. intros Hm. unfold client_id_of. by rewrite Hm. Qed.

Lemma message_text_message (update : Update) (m : Message) :
  message update = Some m -> message_text update = Return (text m).
Proof. intros Hm. unfold message_text. by rewrite Hm. Qed.

Lemma process_question_healthy (update : Update) (m : Message) (t : string)
    (w : World) :
  message update = Some m -> text m = Some t ->
  let websites := map website_url (order_by_name E (supported_programms w)) in
  let answer :=
    mkSendMessage (sender m) (openai_answer E websites (Some t))
                  (Some "Markdown") None in
  exists w',
    process_question E update w
    = (Return [telegram_api E
                 (calls w ++ [TelegramSendMessage (wait_for_answer (sender m));
                              ReadAllProgramms;
                              AnswerQuestion websites (Some t)])%list
                 answer], w') /\
    calls w' = (calls w ++ [TelegramSendMessage (wait_for_answer (sender m));
                            ReadAllProgramms;
                            AnswerQuestion websites (Some t);
                            TelegramSendMessage answer])%list /\
    delivered w' = (delivered w ++ [wait_for_answer (sender m); answer])%list /\
    redis w' = redis w /\
    user_specifics w' = user_specifics w.
Proof.
  intros Hm Ht websites answer.
  unfold process_question.
  rewrite (client_id_of_message _ _ Hm), (message_text_message _ _ Hm), Ht.
  do 2 mlift.
  erewrite bind_Return by reflexivity.
  mstep send_message_healthy.
  mstep get_programs_healthy.
  mstep answer_question_healthy.
  mstep send_message_healthy.
  world_projections.
  eexists. split.
  - unfold ret. rewrite <- !app_assoc. reflexivity.
  - world_projections. rewrite <- !app_assoc. done.
Qed.

Lemma process_recommendation_healthy (update : Update) (m : Message)
    (t : string) (w : World) :
  message update = Some m -> text m = Some t -> 0 < sender m ->
  let notes :=
    order_by_specific E
      (filter (fun r => us_user_id r = sender m)
              (user_specifics w ++ [mkUserSpecific (sender m) t])%list) in
  let programs := order_by_name E (supported_programms w) in
  let response :=
    openai_recommend E (map website_url programs) (map specific notes)
                     (map name programs) in
  let first := mkSendMessage (sender m) (recommendation response)
                             (Some "Markdown") None in
  let second :=
    mkSendMessage (sender m)
      ("Рекомендованная программа: " +:+ recommended_program response)
      (Some "Markdown") None in
  exists w',
    process_recommendation E update w
    = (Return [telegram_api E
                 (calls w ++ [InsertUserSpecific (sender m) t;
                              ReadListedUserSpecifics (sender m);
                              ReadAllProgramms;
                              ProvideRecommendation (map website_url programs)
                                (map specific notes) (map name programs);
                              TelegramSendMessage
                                (wait_for_recommendation (sender m))])%list
                 first;
               telegram_api E
                 (calls w ++ [InsertUserSpecific (sender m) t;
                              ReadListedUserSpecifics (sender m);
                              ReadAllProgramms;
                              ProvideRecommendation (map website_url programs)
                                (map specific notes) (map name programs);
                              TelegramSendMessage
                                (wait_for_recommendation (sender m));
                              TelegramSendMessage first])%list
                 second], w') /\
    calls w' = (calls w ++ [InsertUserSpecific (sender m) t;
                            ReadListedUserSpecifics (sender m);
                            ReadAllProgramms;
                            ProvideRecommendation (map website_url programs)
                              (map specific notes) (map name programs);
                            TelegramSendMessage
                              (wait_for_recommendation (sender m));
                            TelegramSendMessage first;
                            TelegramSendMessage second])%list /\
    delivered w' = (delivered w ++ [wait_for_recommendation (sender m);
                                    first; second])%list /\
    redis w' = redis w /\
    user_specifics w' = (user_specifics w ++ [mkUserSpecific (sender m) t])%list.
Proof.
  intros Hm Ht Hpos notes programs response first second.
  unfold process_recommendation.
  rewrite (client_id_of_message _ _ Hm), (message_text_message _ _ Hm), Ht.
  do 2 mlift.
  mstep create_user_specific_healthy.
  mstep get_user_specifics_healthy.
  mstep get_programs_healthy.
  mstep provide_recommendation_healthy.
  mstep send_message_healthy.
  mstep send_message_healthy.
  mstep send_message_healthy.
  world_projections.
  eexists. split.
  - unfold ret. rewrite <- !app_assoc. reflexivity.
  - world_projections. rewrite <- !app_assoc. done.
Qed.

End Healthy.

(** *** The routing tables *)

Lemma state_routing_questions :
  state_routing E !! States_value QUESTIONS
  = Some (mkFSMRouter (process_question E) (fun _ => true)).
Proof. reflexivity. Qed.

Lemma state_routing_recommendation :
  state_routing E !! States_value RECOMMENDATION
  = Some (mkFSMRouter (process_recommendation E) (fun _ => true)).
Proof. reflexivity. Qed.

Lemma state_routing_main_menu :
  state_routing E !! States_value MAIN_MENU = None.
Proof. reflexivity. Qed.

Lemma text_routing_start :
  text_routing E !! "/start"
  = Some (mkFSMRouter (process_start_command E) (fun _ => true)).
Proof. reflexivity. Qed.

Lemma text_routing_return :
  text_routing E !! "Вернуться в главное меню"
  = Some (mkFSMRouter (process_return_to_main_menu E) (fun _ => true)).
Proof. reflexivity. Qed.

(** *** C4 and C5: the state-triggered handlers *)

Lemma stored_state_is_redis (w w' : World) (cid : Z) (s : States) :
  redis w' = redis w -> stored_state_is E w cid s -> stored_state_is E w' cid s.
Proof. intros Heq (h & d & ? & ? & ?). exists h, d. by rewrite Heq. Qed.

Lemma process_update_state_route (update : Update) (m : Message) (t : string)
    (s : States) (w : World) :
  healthy E ->
  message update = Some m -> text m = Some t -> t <> "" ->
  text_routing E !! t = None ->
  stored_state_is E w (sender m) s ->
  process_update E update w
  = run_selected E
      (resolve_handler_spec E t (Some (mkStateInformation (Some s)))) update
      (add_call (RedisHGetAll (sender m))
         (add_log (INFO, "Processing update: %s of type %s.") w)).
Proof.
  intros Hhealthy Hm Ht Hne Htext Hstored.
  eapply process_update_selected; eauto.
  by apply get_client_state_information_stored.
Qed.

(** C4.  With every collaborator answering, a user in state QUESTIONS who
    sends a non-empty text that is no literal trigger gets exactly one send
    result, the Bot API's answer to the message carrying the answer; the
    one [AnswerQuestion] request of the run carries the catalog's URLs and
    the raw text; the session store is unchanged, so the stored state is
    still QUESTIONS. *)
Theorem process_update_in_questions (update : Update) (m : Message)
    (t : string) (w : World) :
  healthy E ->
  message update = Some m -> text m = Some t -> t <> "" ->
  text_routing E !! t = None ->
  stored_state_is E w (sender m) QUESTIONS ->
  let websites := map website_url (order_by_name E (supported_programms w)) in
  exists h w' new,
    process_update E update w
    = (Return [telegram_api E h
                 (mkSendMessage (sender m) (openai_answer E websites (Some t))
                                (Some "Markdown") None)], w') /\
    calls w' = (calls w ++ new)%list /\
    answer_question_calls new = [(websites, Some t)] /\
    redis w' = redis w /\
    stored_state_is E w' (sender m) QUESTIONS.
Proof.
  intros Hhealthy Hm Ht Hne Htext Hstored websites.
  rewrite (process_update_state_route _ _ _ _ _ Hhealthy Hm Ht Hne Htext Hstored).
  unfold resolve_handler_spec. rewrite Htext.
  cbn [mbind option_bind state]. rewrite state_routing_questions.
  cbn [validator handler].
  destruct (process_question_healthy Hhealthy update m t
              (add_call (RedisHGetAll (sender m))
                 (add_log (INFO, "Processing update: %s of type %s.") w))
              Hm Ht) as (w' & Hrun & Hcalls & _ & Hredis & _).
  unfold run_selected, bind, try_except, logger, ret. rewrite Hrun.
  eexists _, _, _. split; [reflexivity|].
  world_projections. rewrite Hcalls, Hredis. world_projections.
  split; [by rewrite <- app_assoc|].
  split; [done|]. split; [done|].
  eapply stored_state_is_redis; [|exact Hstored].
  world_projections. by rewrite Hredis.
Qed.

(** *** C8: a state write merges into the stored record *)

Lemma state_record_merge (s : States) (old : gmap string string) :
  ({[ "state" := States_value s ]} ∪ old) !! "state" = Some (States_value s) /\
  (forall f, f <> "state" ->
             ({[ "state" := States_value s ]} ∪ old) !! f = old !! f) /\
  (dom old ⊆ ({["state"]} : gset string) ->
   {[ "state" := States_value s ]} ∪ old
   = ({[ "state" := States_value s ]} : gmap string string)).
Proof.
  split; [|split].
  - apply lookup_union_Some_l, lookup_singleton_eq.
  - intros f Hf. apply lookup_union_r. by apply lookup_singleton_ne.
  - intros Hdom. apply map_eq. intros f.
    destruct (decide (f = "state")) as [->|Hf].
    + rewrite lookup_singleton_eq.
      apply lookup_union_Some_l, lookup_singleton_eq.
    + rewrite lookup_union_r by (by apply lookup_singleton_ne).
      rewrite lookup_singleton_ne by done.
      apply not_elem_of_dom. intros Hin. apply Hdom in Hin. set_solver.
Qed.

(** C8, amended.  With every collaborator answering, a state write by
    [return_to_main_menu], [question_about_program] or [get_recommendation]
    touches the one record of the sender and no other user's record; it
    sets the field [state] to the new state and keeps every other field of
    the previously stored record; the new record is exactly the single
    field [state] when the previous record held no other field. *)
Theorem state_write_merges (h : UpdateHandler) (s : States) (update : Update)
    (m : Message) (w : World) :
  healthy E ->
  In (h, s) (state_writers E) ->
  message update = Some m ->
  exists result w' record,
    h update w = (Return result, w') /\
    (forall k, k <> sender m -> redis w' !! k = redis w !! k) /\
    redis w' !! sender m = Some record /\
    record !! "state" = Some (States_value s) /\
    (forall f, f <> "state" ->
               record !! f = default ∅ (redis w !! sender m) !! f) /\
    (dom (default ∅ (redis w !! sender m)) ⊆ ({["state"]} : gset string) ->
     record = {[ "state" := States_value s ]}).
Proof.
  intros Hhealthy Hin Hm.
  destruct (state_record_merge s (default ∅ (redis w !! sender m)))
    as (Hstate & Hother & Honly).
  assert (Hrun : exists result w',
    h update w = (Return result, w') /\
    redis w' = <[sender m := {[ "state" := States_value s ]}
                             ∪ default ∅ (redis w !! sender m)]> (redis w)).
  { destruct Hin as [[= <- <-]|[[= <- <-]|[[= <- <-]|[]]]].
    all: unfold process_return_to_main_menu, process_question_about_program,
           process_get_recommendation.
    all: rewrite (client_id_of_message _ _ Hm); mlift.
    all: mstep redis_hmset_healthy; mstep send_message_healthy.
    all: eexists _, _; split; [reflexivity|]; world_projections; done. }
  destruct Hrun as (result & w' & Hrun & Hredis).
  exists result, w', ({[ "state" := States_value s ]}
                      ∪ default ∅ (redis w !! sender m)).
  split; [exact Hrun|]. rewrite Hredis.
  split; [intros k Hk; by rewrite lookup_insert_ne|].
  split; [by rewrite lookup_insert_eq|].
  done.
Qed.

(** *** C7: [/start] deletes the record, then writes it *)

Lemma process_return_to_main_menu_healthy (update : Update) (m : Message)
    (w : World) :
  healthy E ->
  message update = Some m ->
  exists w',
    process_return_to_main_menu E update w
    = (Return [telegram_api E
                 (calls w ++ [RedisHSet (sender m) main_menu_record])%list
                 (main_menu_message (sender m))], w') /\
    calls w' = (calls w ++ [RedisHSet (sender m) main_menu_record;
                            TelegramSendMessage (main_menu_message (sender m))])%list /\
    delivered w' = (delivered w ++ [main_menu_message (sender m)])%list /\
    redis w' = <[sender m := main_menu_record ∪ default ∅ (redis w !! sender m)]>
                 (redis w).
Proof.
  intros Hhealthy Hm. unfold process_return_to_main_menu.
  rewrite (client_id_of_message _ _ Hm). mlift.
  mstep redis_hmset_healthy. mstep send_message_healthy.
  eexists. split; [reflexivity|]. world_projections.
  by rewrite <- !app_assoc.
Qed.

(** C7, amended.  With every collaborator answering, the [/start] handler
    first deletes the sender's session record and then writes a MAIN_MENU
    record; these two are its only store calls before the greeting is sent,
    and a third store call, the write of the chained main-menu handler,
    follows the greeting.  Afterwards the sender's record is exactly the
    single field [state = main_menu], whatever it held before. *)
Theorem process_start_command_deletes_first (update : Update) (m : Message)
    (w : World) :
  healthy E ->
  message update = Some m ->
  exists r1 r2 w',
    process_start_command E update w = (Return [r1; r2], w') /\
    calls w'
    = (calls w ++
       [RedisDelete (sender m);
        RedisHSet (sender m) main_menu_record;
        ReadAllProgramms;
        TelegramSendMessage
          (greeting (sender m) (order_by_name E (supported_programms w)));
        RedisHSet (sender m) main_menu_record;
        TelegramSendMessage (main_menu_message (sender m))])%list /\
    redis w' = <[sender m := main_menu_record]> (redis w).
Proof.
  intros Hhealthy Hm. unfold process_start_command.
  rewrite (client_id_of_message _ _ Hm). mlift.
  mstep redis_delete_healthy. mstep redis_hmset_healthy.
  mstep get_programs_healthy. mstep send_message_healthy.
  match goal with
  | |- context [bind (process_return_to_main_menu E update) _ ?w0] =>
    destruct (process_return_to_main_menu_healthy update m w0 Hhealthy Hm)
      as (w' & Hrun & Hcalls & _ & Hredis)
  end.
  erewrite bind_Return by exact Hrun.
  eexists _, _, _. split; [reflexivity|].
  rewrite Hcalls, Hredis. world_projections.
  split; [by rewrite <- !app_assoc|].
  rewrite lookup_insert_eq. cbn [default from_option]. unfold id.
  rewrite insert_insert_eq, lookup_delete_eq. cbn [default from_option].
  rewrite insert_delete_eq.
  change (to_dict (mkStateInformation (Some MAIN_MENU))) with main_menu_record.
  by rewrite (right_id_L ∅ (∪)), (idemp_L (∪)).
Qed.

(** *** C3: updates without a text message *)

Lemma determine_update_type_no_text (update : Update) :
  has_text update = false ->
  determine_update_type update
  = Raise (ValueError "Unexpected update type processing.").
Proof.
  unfold has_text, determine_update_type, is_truthy.
  destruct (message update) as [m|]; [|done].
  by destruct (text m) as [[|]|].
Qed.

Lemma process_update_attempt_no_text (update : Update) (w : World) :
  has_text update = false ->
  process_update_attempt E update w
  = (Raise (ValueError "Unexpected update type processing."), w).
Proof.
  intros Hno. unfold process_update_attempt.
  by rewrite (determine_update_type_no_text _ Hno).
Qed.

(** C3, amended.  For an update without a text message [process_update]
    never raises and runs no handler but the default one, on the recovery
    path: the result is the default handler's output if that handler
    returns and the empty list if it raises.  When the update has a
    message and every collaborator answers, the result is the one
    main-menu reply.  When the update has no message at all, the default
    handler raises on reading the sender, and the result is the empty
    list, with no external call made. *)
Theorem process_update_without_text (update : Update) (w : World) :
  has_text update = false ->
  (exists result w', process_update E update w = (Return result, w')) /\
  process_update E update w =
    match process_return_to_main_menu E update
            (add_log (ERROR, "Unexpected error when processing update: %s") w)
    with
    | (Return result, w2) =>
      (Return result, add_log (INFO, "Processing result: %s.") w2)
    | (Raise _, w2) =>
      (Return [],
       add_log (INFO, "Processing result: %s.")
         (add_log (ERROR, "While handling previous exception, another was raised: %s")
            w2))
    end /\
  (forall m, message update = Some m -> healthy E ->
     exists h w',
       process_update E update w
       = (Return [telegram_api E h (main_menu_message (sender m))], w') /\
       delivered w' = (delivered w ++ [main_menu_message (sender m)])%list) /\
  (message update = None ->
     exists w',
       process_update E update w = (Return [], w') /\
       calls w' = calls w /\ delivered w' = delivered w /\ redis w' = redis w).
Proof.
  intros Hno.
  assert (Hrec : process_update E update w =
    match process_return_to_main_menu E update
            (add_log (ERROR, "Unexpected error when processing update: %s") w)
    with
    | (Return result, w2) =>
      (Return result, add_log (INFO, "Processing result: %s.") w2)
    | (Raise _, w2) =>
      (Return [],
       add_log (INFO, "Processing result: %s.")
         (add_log (ERROR, "While handling previous exception, another was raised: %s")
            w2))
    end).
  { by rewrite process_update_cases, (process_update_attempt_no_text _ _ Hno). }
  split; [apply process_update_returns|].
  split; [exact Hrec|].
  split.
  - intros m Hm Hhealthy. rewrite Hrec.
    destruct (process_return_to_main_menu_healthy update m
                (add_log (ERROR, "Unexpected error when processing update: %s") w)
                Hhealthy Hm) as (w' & Hrun & _ & Hdelivered & _).
    rewrite Hrun.
    eexists _, _. split; [reflexivity|]. world_projections.
    by rewrite Hdelivered.
  - intros Hnone. rewrite Hrec.
    unfold process_return_to_main_menu, client_id_of.
    rewrite Hnone. unfold bind, lift.
    eexists. split; [reflexivity|]. by world_projections.
Qed.

(** *** The outbox: which steps send a message *)

Lemma bind_inv {A B} (m : M A) (k : A -> M B) (w w2 : World) (b : B) :
  bind m k w = (Return b, w2) ->
  exists a w1, m w = (Return a, w1) /\ k a w1 = (Return b, w2).
Proof.
  unfold bind. destruct (m w) as [[a|e] w1]; [eauto|discriminate].
Qed.

Lemma sends_nothing_returned {A} (m : M A) (w w1 : World) (o : outcome A) :
  sends_nothing m -> m w = (o, w1) -> delivered w1 = delivered w.
Proof. intros Hm Hrun. specialize (Hm w). by rewrite Hrun in Hm. Qed.

Lemma sends_nothing_ret {A} (a : A) : sends_nothing (ret a).
Proof. done. Qed.

Lemma sends_nothing_raise {A} (e : exn) : sends_nothing (@raise A e).
Proof. done. Qed.

Lemma sends_nothing_lift {A} (o : outcome A) : sends_nothing (lift o).
Proof. done. Qed.

Lemma sends_nothing_logger (level : LogLevel) (fmt : string) :
  sends_nothing (logger level fmt).
Proof. done. Qed.

Lemma sends_nothing_bind {A B} (m : M A) (k : A -> M B) :
  sends_nothing m -> (forall a, sends_nothing (k a)) ->
  sends_nothing (bind m k).
Proof.
  intros Hm Hk w. unfold bind. specialize (Hm w).
  destruct (m w) as [[a|e] w1]; cbn [snd] in *; [|done].
  by rewrite Hk.
Qed.

Lemma sends_nothing_try_except {A} (body : M A) (handler : exn -> M A) :
  sends_nothing body -> (forall e, sends_nothing (handler e)) ->
  sends_nothing (try_except body handler).
Proof.
  intros Hb Hh w. unfold try_except. specialize (Hb w).
  destruct (body w) as [[a|e] w1]; cbn [snd] in *; [done|].
  by rewrite Hh.
Qed.

Lemma sends_nothing_external {A} (c : Call) (effect : World -> A * World) :
  (forall w, delivered (effect w).2 = delivered w) ->
  sends_nothing (external E c effect).
Proof.
  intros Heff w. unfold external.
  destruct (fails E (calls w) c); [done|].
  specialize (Heff (add_call c w)).
  by destruct (effect (add_call c w)).
Qed.

Create HintDb outbox.

#[local] Hint Resolve sends_nothing_ret sends_nothing_raise sends_nothing_lift
  sends_nothing_logger sends_nothing_bind sends_nothing_try_except
  sends_nothing_external : outbox.

Lemma sends_nothing_redis_hmset (key : Z) (value : gmap string string) :
  sends_nothing (RedisClient.hmset E key value).
Proof. unfold RedisClient.hmset. auto with outbox. Qed.

Lemma sends_nothing_redis_delete (key : Z) :
  sends_nothing (RedisClient.delete E key).
Proof. unfold RedisClient.delete. auto with outbox. Qed.

Lemma sends_nothing_get_programs : sends_nothing (SupportedProgrammsService.get_programs E).
Proof.
  unfold SupportedProgrammsService.get_programs, SupportedProgrammsRepository.read_all.
  repeat (apply sends_nothing_bind || apply sends_nothing_try_except
          || apply sends_nothing_external || intros []
          || intro || auto with outbox).
Qed.

Lemma sends_nothing_answer_question (websites : list string)
    (question : option string) :
  sends_nothing (OpenAIService.answer_question E websites question).
Proof.
  unfold OpenAIService.answer_question.
  repeat (apply sends_nothing_bind || apply sends_nothing_try_except
          || apply sends_nothing_external || intro || auto with outbox).
Qed.

Lemma sends_nothing_provide_recommendation (websites specifics programs : list string) :
  sends_nothing (OpenAIService.provide_recommendation E websites specifics programs).
Proof.
  unfold OpenAIService.provide_recommendation.
  repeat (apply sends_nothing_bind || apply sends_nothing_try_except
          || apply sends_nothing_external || intro || auto with outbox).
Qed.

Lemma sends_nothing_create_user_specific (uid : Z) (t : option string) :
  sends_nothing (UserSpecificsService.create_user_specific E uid t).
Proof.
  unfold UserSpecificsService.create_user_specific, UserSpecificsRepository.create.
  repeat (apply sends_nothing_bind || apply sends_nothing_external
          || intro || auto with outbox).
Qed.

Lemma sends_nothing_get_user_specifics (uid : Z) :
  sends_nothing (UserSpecificsService.get_user_specifics E uid).
Proof.
  unfold UserSpecificsService.get_user_specifics, UserSpecificsRepository.read_listed.
  repeat (apply sends_nothing_bind || apply sends_nothing_try_except
          || apply sends_nothing_external || intros []
          || intro || auto with outbox).
Qed.

Lemma send_message_returned (cid : Z) (t : string) (pm : option string)
    (rm : option ReplyMarkup) (w w1 : World) (r : TelegramAPISendMessageResponse) :
  TelegramClient.send_message E cid t pm rm w = (Return r, w1) ->
  delivered w1 = (delivered w ++ [mkSendMessage cid t pm rm])%list.
Proof.
  unfold TelegramClient.send_message, external.
  destruct (fails E (calls w) _); [discriminate|].
  by intros [= _ <-].
Qed.

Ltac minv H :=
  let a := fresh "a" in
  let w1 := fresh "w" in
  let H1 := fresh "Hstep" in
  apply bind_inv in H as (a & w1 & H1 & H).

Ltac outbox_step H :=
  first
    [ apply send_message_returned in H
    | eapply sends_nothing_returned in H;
      [|first [ apply sends_nothing_lift | apply sends_nothing_logger
              | apply sends_nothing_redis_hmset | apply sends_nothing_redis_delete
              | apply sends_nothing_get_programs
              | apply sends_nothing_answer_question
              | apply sends_nothing_provide_recommendation
              | apply sends_nothing_create_user_specific
              | apply sends_nothing_get_user_specifics ]] ].

(** *** What the routing can return *)

Lemma text_routing_registered (t : string) (router : FSMRouter) :
  text_routing E !! t = Some router ->
  exists interim, In (handler router, interim) (handlers E).
Proof.
  unfold text_routing.
  rewrite !lookup_insert_Some, lookup_singleton_Some.
  intros [[_ <-]|[_ [[_ <-]|[_ [[_ <-]|[_ [_ <-]]]]]]];
    eexists; cbn [handler handlers In]; eauto 10.
Qed.

Lemma state_routing_registered (k : string) (router : FSMRouter) :
  state_routing E !! k = Some router ->
  exists interim, In (handler router, interim) (handlers E).
Proof.
  unfold state_routing.
  rewrite lookup_insert_Some, lookup_singleton_Some.
  intros [[_ <-]|[_ [_ <-]]];
    eexists; cbn [handler handlers In]; eauto 10.
Qed.

Lemma process_message_update_registered (update : Update) (w w1 : World)
    (function : UpdateHandler) :
  process_message_update E update w = (Return function, w1) ->
  exists interim, In (function, interim) (handlers E).
Proof.
  assert (Hdefault : exists interim,
            In (process_return_to_main_menu E, interim) (handlers E)).
  { exists 0%nat. right. by left. }
  unfold process_message_update. intros H.
  minv H. minv H. minv H.
  destruct (a1 ≫= _) as [router|] eqn:Htext.
  - destruct a1 as [t|]; [|discriminate]. cbn in Htext.
    apply text_routing_registered in Htext.
    destruct (validator router a0); injection H as <- _; done.
  - destruct a0 as [state_information|]; [|discriminate].
    destruct (state state_information ≫= _) as [router|] eqn:Hstate.
    + destruct (state state_information) as [s|]; [|discriminate].
      cbn in Hstate. apply state_routing_registered in Hstate.
      destruct (validator router _); injection H as <- _; done.
    + injection H as <- _. done.
Qed.

(** *** Frames: what a run leaves alone

    The lemmas of this section hold for any relation [R] between the world
    before and after a computation that is a preorder and is not affected
    by the call trace and the log.  Four more assumptions say how [R]
    treats the effects made on behalf of one client [cid]. *)

Section Frame.

Context (R : World -> World -> Prop).
Hypothesis R_refl : forall w, R w w.
Hypothesis R_trans : forall a b c, R a b -> R b c -> R a c.
Hypothesis R_log : forall r w, R w (add_log r w).
Hypothesis R_call : forall c w, R w (add_call c w).

Lemma respects_ret {A} (a : A) : respects R (ret a).
Proof. intros w. apply R_refl. Qed.

Lemma respects_raise {A} (e : exn) : respects R (@raise A e).
Proof. intros w. apply R_refl. Qed.

Lemma respects_lift {A} (o : outcome A) : respects R (lift o).
Proof. intros w. apply R_refl. Qed.

Lemma respects_logger (level : LogLevel) (fmt : string) :
  respects R (logger level fmt).
Proof. intros w. apply R_log. Qed.

Lemma respects_bind {A B} (m : M A) (k : A -> M B) :
  respects R m ->
  (forall a w w1, m w = (Return a, w1) -> respects R (k a)) ->
  respects R (bind m k).
Proof.
  intros Hm Hk w. unfold bind. specialize (Hm w).
  destruct (m w) as [[a|e] w1] eqn:Hrun; cbn [snd] in *; [|done].
  eapply R_trans; [exact Hm|]. by eapply Hk.
Qed.

Lemma respects_bind_lift {A B} (a : A) (k : A -> M B) :
  respects R (k a) -> respects R (bind (lift (Return a)) k).
Proof. intros Hk w. apply Hk. Qed.

Lemma respects_try_except {A} (body : M A) (handler : exn -> M A) :
  respects R body -> (forall e, respects R (handler e)) ->
  respects R (try_except body handler).
Proof.
  intros Hb Hh w. unfold try_except. specialize (Hb w).
  destruct (body w) as [[a|e] w1]; cbn [snd] in *; [done|].
  eapply R_trans; [exact Hb|]. apply Hh.
Qed.

Lemma respects_external {A} (c : Call) (effect : World -> A * World) :
  (forall w, R w (effect w).2) -> respects R (external E c effect).
Proof.
  intros Heff w. unfold external.
  destruct (fails E (calls w) c); cbn [snd]; [apply R_call|].
  specialize (Heff (add_call c w)).
  destruct (effect (add_call c w)) as [a w2]. cbn [snd] in *.
  eapply R_trans; [apply R_call|exact Heff].
Qed.

Lemma respects_hgetall (key : Z) : respects R (RedisClient.hgetall E key).
Proof. apply respects_external. intros w. apply R_refl. Qed.

Lemma respects_get_programs :
  respects R (SupportedProgrammsService.get_programs E).
Proof.
  unfold SupportedProgrammsService.get_programs,
    SupportedProgrammsRepository.read_all.
  apply respects_bind; [apply respects_logger|intros _ _ _ _].
  apply respects_try_except.
  - apply respects_bind.
    + apply respects_external. intros w. apply R_refl.
    + intros [|] ? ? _; [apply respects_raise|apply respects_ret].
  - intros []; first [apply respects_ret|apply respects_raise].
Qed.

Lemma respects_get_user_specifics (uid : Z) :
  respects R (UserSpecificsService.get_user_specifics E uid).
Proof.
  unfold UserSpecificsService.get_user_specifics,
    UserSpecificsRepository.read_listed.
  apply respects_bind; [apply respects_logger|intros _ _ _ _].
  apply respects_try_except.
  - apply respects_bind; [apply respects_lift|intros cmd _ _ _].
    apply respects_bind.
    + apply respects_external. intros w. apply R_refl.
    + intros [|] ? ? _; [apply respects_raise|apply respects_ret].
  - intros []; first [apply respects_ret|apply respects_raise].
Qed.

Lemma respects_answer_question (websites : list string)
    (question : option string) :
  respects R (OpenAIService.answer_question E websites question).
Proof.
  unfold OpenAIService.answer_question.
  apply respects_bind; [apply respects_logger|intros _ _ _ _].
  apply respects_try_except.
  - apply respects_external. intros w. apply R_refl.
  - intros e. apply respects_bind; [apply respects_logger|intros _ _ _ _].
    apply respects_raise.
Qed.

Lemma respects_provide_recommendation (websites specifics programs : list string) :
  respects R (OpenAIService.provide_recommendation E websites specifics programs).
Proof.
  unfold OpenAIService.provide_recommendation.
  apply respects_bind; [apply respects_logger|intros _ _ _ _].
  apply respects_try_except.
  - apply respects_external. intros w. apply R_refl.
  - intros e. apply respects_bind; [apply respects_logger|intros _ _ _ _].
    apply respects_raise.
Qed.

Lemma respects_get_client_state_information (client_id : Z) :
  respects R (get_client_state_information E client_id).
Proof.
  unfold get_client_state_information.
  apply respects_bind; [apply respects_hgetall|intros [|response ?] _ _ _].
  { apply respects_raise. }
  destruct (decide (response = ∅)); [apply respects_ret|].
  apply respects_try_except.
  - apply respects_bind; [apply respects_lift|intros ? _ _ _].
    apply respects_bind; [apply respects_lift|intros ? _ _ _].
    apply respects_bind; [apply respects_ret|intros ? _ _ _].
    apply respects_ret.
  - intros []; try apply respects_raise.
    apply respects_bind; [apply respects_logger|intros _ _ _ _].
    apply respects_ret.
Qed.

(** Without a message every handler raises at once, on reading the
    sender. *)
Lemma handler_without_message (h : UpdateHandler) (interim : nat)
    (update : Update) (w : World) :
  In (h, interim) (handlers E) -> message update = None ->
  h update w = (Raise AttributeError, w).
Proof.
  intros Hin Hnone.
  destruct Hin as [[= <- <-]|[[= <- <-]|[[= <- <-]|[[= <- <-]|[[= <- <-]|[[= <- <-]|[]]]]]]].
  all: unfold process_start_command, process_return_to_main_menu,
         process_question_about_program, process_question,
         process_get_recommendation, process_recommendation,
         client_id_of, bind, lift.
  all: by rewrite Hnone.
Qed.

Lemma process_update_without_message_respects (update : Update) :
  message update = None -> respects R (process_update E update).
Proof.
  intros Hnone w.
  rewrite process_update_cases.
  rewrite process_update_attempt_no_text
    by (unfold has_text; by rewrite Hnone).
  rewrite (handler_without_message (process_return_to_main_menu E) 0%nat)
    by (first [done | right; left; reflexivity]).
  cbn [snd].
  eapply R_trans; [apply R_log|].
  eapply R_trans; [apply R_log|]. apply R_log.
Qed.

Section Client.

Context (cid : Z).
Hypothesis R_hset : forall s w,
  R w (set_redis
         (fun r => <[cid := to_dict (mkStateInformation (Some s))
                             ∪ default ∅ (r !! cid)]> r) w).
Hypothesis R_delete : forall w, R w (set_redis (base.delete cid) w).
Hypothesis R_send : forall t pm rm w,
  R w (add_delivered (mkSendMessage cid t pm rm) w).
Hypothesis R_note : forall t w,
  R w (add_user_specific (mkUserSpecific cid t) w).

Lemma respects_hmset (s : States) :
  respects R (RedisClient.hmset E cid (to_dict (mkStateInformation (Some s)))).
Proof. apply respects_external. intros w. apply R_hset. Qed.

Lemma respects_delete : respects R (RedisClient.delete E cid).
Proof. apply respects_external. intros w. apply R_delete. Qed.

Lemma respects_send_message (t : string) (pm : option string)
    (rm : option ReplyMarkup) :
  respects R (TelegramClient.send_message E cid t pm rm).
Proof.
  intros w. unfold TelegramClient.send_message.
  apply (respects_external _ (fun w' => (_, add_delivered _ w'))).
  intros w'. apply R_send.
Qed.

Lemma respects_create_user_specific (t : option string) :
  respects R (UserSpecificsService.create_user_specific E cid t).
Proof.
  unfold UserSpecificsService.create_user_specific, CreateUserSpecificCommand,
    UserSpecificsRepository.create.
  destruct t as [t|]; [|intros w; apply R_refl].
  destruct (0 <? cid); [|intros w; apply R_refl].
  apply respects_bind_lift. apply respects_external. intros w. apply R_note.
Qed.

Ltac respects_step :=
  first
    [ apply respects_ret | apply respects_raise | apply respects_lift
    | apply respects_logger | apply respects_hmset | apply respects_delete
    | apply respects_send_message | apply respects_create_user_specific
    | apply respects_get_programs | apply respects_get_user_specifics
    | apply respects_answer_question | apply respects_provide_recommendation
    | apply respects_get_client_state_information
    | apply respects_bind_lift
    | (apply respects_bind; [|intros ? ? ? _]) ].

Lemma process_return_to_main_menu_respects (update : Update) :
  client_id_of update = Return cid ->
  respects R (process_return_to_main_menu E update).
Proof.
  intros Hcid. unfold process_return_to_main_menu. rewrite Hcid.
  repeat respects_step.
Qed.

Lemma handler_respects (h : UpdateHandler) (interim : nat) (update : Update) :
  In (h, interim) (handlers E) ->
  client_id_of update = Return cid ->
  respects R (h update).
Proof.
  intros Hin Hcid.
  destruct Hin as [[= <- <-]|[[= <- <-]|[[= <- <-]|[[= <- <-]|[[= <- <-]|[[= <- <-]|[]]]]]]].
  - unfold process_start_command, process_return_to_main_menu. rewrite Hcid.
    repeat respects_step.
  - by apply process_return_to_main_menu_respects.
  - unfold process_question_about_program. rewrite Hcid.
    repeat respects_step.
  - unfold process_question. rewrite Hcid. repeat respects_step.
  - unfold process_get_recommendation. rewrite Hcid. repeat respects_step.
  - unfold process_recommendation. rewrite Hcid. repeat respects_step.
Qed.

Lemma process_question_respects (update : Update) :
  client_id_of update = Return cid ->
  respects R (process_question E update).
Proof.
  intros Hcid. unfold process_question. rewrite Hcid. repeat respects_step.
Qed.

Lemma process_recommendation_respects (update : Update) :
  client_id_of update = Return cid ->
  respects R (process_recommendation E update).
Proof.
  intros Hcid. unfold process_recommendation. rewrite Hcid.
  repeat respects_step.
Qed.

Lemma process_update_with_message_respects (update : Update) :
  client_id_of update = Return cid ->
  respects R (process_update E update).
Proof.
  intros Hcid. unfold process_update.
  apply respects_bind; [|intros ? ? ? _; repeat respects_step].
  apply respects_try_except.
  - unfold process_update_attempt.
    apply respects_bind; [apply respects_lift|intros [] _ _ _].
    apply respects_bind; [apply respects_logger|intros _ _ _ _].
    apply respects_bind.
    + unfold process_update_based_on_its_type, process_message_update.
      rewrite Hcid. apply respects_bind_lift.
      apply respects_bind;
        [apply respects_get_client_state_information|intros st _ _ _].
      apply respects_bind; [apply respects_lift|intros t _ _ _].
      destruct (t ≫= _) as [router|].
      { destruct (validator router st); apply respects_ret. }
      destruct st as [si|]; [|apply respects_raise].
      destruct (state si ≫= _) as [router|]; [|apply respects_ret].
      destruct (validator router _); apply respects_ret.
    + intros function w w1 Hrouted.
      apply process_message_update_registered in Hrouted as [interim Hin].
      by eapply handler_respects.
  - intros _. unfold process_update_recovery.
    apply respects_try_except.
    + apply respects_bind; [apply respects_logger|intros _ _ _ _].
      by apply process_return_to_main_menu_respects.
    + intros _. repeat respects_step.
Qed.

End Client.

End Frame.

Lemma client_id_of_cases (update : Update) :
  (message update = None /\ client_of update = None) \/
  (exists cid, client_id_of update = Return cid /\ client_of update = Some cid).
Proof.
  unfold client_id_of, client_of, sender.
  destruct (message update) as [m|]; [right|left]; eauto.
Qed.

(** *** A run is confined to the sender *)

Lemma touches_only_refl (who : option Z) (w : World) : touches_only who w w.
Proof.
  split; [done| | |done].
  - exists []. by rewrite app_nil_r.
  - exists []. by rewrite app_nil_r.
Qed.

Lemma touches_only_trans (who : option Z) (a b c : World) :
  touches_only who a b -> touches_only who b c -> touches_only who a c.
Proof.
  intros [Hr1 (s1 & Hs1 & Hf1) (n1 & Hn1 & Hg1) Hc1]
         [Hr2 (s2 & Hs2 & Hf2) (n2 & Hn2 & Hg2) Hc2].
  split.
  - intros k Hk. by rewrite Hr2, Hr1.
  - exists (s1 ++ s2)%list. rewrite Hs2, Hs1, <- app_assoc.
    split; [done|]. by apply Forall_app.
  - exists (n1 ++ n2)%list. rewrite Hn2, Hn1, <- app_assoc.
    split; [done|]. by apply Forall_app.
  - by rewrite Hc2.
Qed.

Lemma touches_only_log (who : option Z) (r : LogRecord) (w : World) :
  touches_only who w (add_log r w).
Proof. destruct (touches_only_refl who w). by split. Qed.

Lemma touches_only_call (who : option Z) (c : Call) (w : World) :
  touches_only who w (add_call c w).
Proof. destruct (touches_only_refl who w). by split. Qed.

Lemma touches_only_store (cid : Z)
    (f : gmap Z (gmap string string) -> gmap Z (gmap string string))
    (w : World) :
  (forall r k, k <> cid -> f r !! k = r !! k) ->
  touches_only (Some cid) w (set_redis f w).
Proof.
  intros Hf. split; world_projections; [|exists []..|done].
  - intros k Hk. apply Hf. congruence.
  - by rewrite app_nil_r.
  - by rewrite app_nil_r.
Qed.

Lemma touches_only_send (cid : Z) (t : string) (pm : option string)
    (rm : option ReplyMarkup) (w : World) :
  touches_only (Some cid) w (add_delivered (mkSendMessage cid t pm rm) w).
Proof.
  split; world_projections; [done| |exists []|done].
  - eexists [_]. split; [reflexivity|]. repeat constructor.
  - by rewrite app_nil_r.
Qed.

Lemma touches_only_note (cid : Z) (t : string) (w : World) :
  touches_only (Some cid) w (add_user_specific (mkUserSpecific cid t) w).
Proof.
  split; world_projections; [done|exists []| |done].
  - by rewrite app_nil_r.
  - eexists [_]. split; [reflexivity|]. repeat constructor.
Qed.

Lemma process_update_touches_only (update : Update) (w : World) :
  touches_only (client_of update) w (process_update E update w).2.
Proof.
  destruct (client_id_of_cases update) as [[Hnone ->]|(cid & Hcid & ->)].
  - apply (process_update_without_message_respects (touches_only None));
      first [ exact Hnone | apply touches_only_refl
            | exact (touches_only_trans None) | apply touches_only_log ].
  - apply (process_update_with_message_respects (touches_only (Some cid)))
      with (cid := cid);
      first [ exact Hcid | apply touches_only_refl
            | exact (touches_only_trans (Some cid)) | apply touches_only_log
            | apply touches_only_call | apply touches_only_send
            | apply touches_only_note | idtac ].
    + intros s w0. apply touches_only_store.
      intros r k Hk. by rewrite lookup_insert_ne.
    + intros w0. apply touches_only_store.
      intros r k Hk. by rewrite lookup_delete_ne.
Qed.

(** X1.  Whatever the collaborators do, [process_update] leaves the
    session record of every client other than the update's sender as it
    was; an update without a message changes no record at all. *)
Theorem process_update_isolates_clients (update : Update) (w : World) (k : Z) :
  client_of update <> Some k ->
  redis (process_update E update w).2 !! k = redis w !! k.
Proof.
  intros Hk. by apply (other_records _ _ _ (process_update_touches_only update w)).
Qed.

(** X2.  Whatever the collaborators do, every message [process_update]
    sends goes to the chat of the update's sender: the outbox grows at its
    end, by messages addressed to that client only, and an update without
    a message sends nothing. *)
Theorem process_update_replies_to_sender (update : Update) (w : World) :
  exists sent,
    delivered (process_update E update w).2 = (delivered w ++ sent)%list /\
    Forall (fun x => client_of update = Some (sm_chat_id x)) sent.
Proof. apply (new_messages _ _ _ (process_update_touches_only update w)). Qed.

(** X3.  Whatever the collaborators do, [process_update] only appends to
    the notes table, and only notes of the update's sender, and it never
    changes the catalog. *)
Theorem process_update_appends_own_notes (update : Update) (w : World) :
  (exists notes,
     user_specifics (process_update E update w).2
     = (user_specifics w ++ notes)%list /\
     Forall (fun r => client_of update = Some (us_user_id r)) notes) /\
  supported_programms (process_update E update w).2 = supported_programms w.
Proof.
  split.
  - apply (new_notes _ _ _ (process_update_touches_only update w)).
  - apply (same_catalog _ _ _ (process_update_touches_only update w)).
Qed.

(** *** The store stays as the service writes it *)

Lemma service_written_hset (cid : Z) (s : States)
    (r : gmap Z (gmap string string)) :
  service_written r ->
  service_written
    (<[cid := to_dict (mkStateInformation (Some s)) ∪ default ∅ (r !! cid)]> r).
Proof.
  intros Hr k h. rewrite lookup_insert_Some.
  intros [[_ <-]|[_ Hk]]; [|by eapply Hr].
  exists s. change (to_dict (mkStateInformation (Some s)))
    with ({[ "state" := States_value s ]} : gmap string string).
  apply state_record_merge.
  destruct (r !! cid) as [old|] eqn:Hold; cbn [default from_option];
    unfold id.
  - destruct (Hr cid old Hold) as [s' ->]. by rewrite dom_singleton_L.
  - by rewrite dom_empty_L.
Qed.

Lemma service_written_delete (cid : Z) (r : gmap Z (gmap string string)) :
  service_written r -> service_written (delete cid r).
Proof.
  intros Hr k h. rewrite lookup_delete_Some. intros [_ Hk]. by eapply Hr.
Qed.

Lemma process_update_respects_service_written (update : Update) :
  respects keeps_service_written (process_update E update).
Proof.
  destruct (client_id_of_cases update) as [[Hnone _]|(cid & Hcid & _)].
  - apply process_update_without_message_respects;
      first [ exact Hnone | exact (fun w H => H) | exact (fun _ w H => H)
            | exact (fun a b c Hab Hbc Ha => Hbc (Hab Ha)) ].
  - apply process_update_with_message_respects with (cid := cid);
      first [ exact Hcid | exact (fun w H => H) | exact (fun _ w H => H)
            | exact (fun _ _ _ w H => H)
            | exact (fun a b c Hab Hbc Ha => Hbc (Hab Ha)) | idtac ].
    + intros s w. unfold keeps_service_written. world_projections.
      apply service_written_hset.
    + intros w. unfold keeps_service_written. world_projections.
      apply service_written_delete.
Qed.

(** X4.  Whatever the collaborators do, [process_update] keeps the
    session store in the form the service writes: if every record is a
    single field [state] holding the value of a member of [States], the
    same is true afterwards. *)
Theorem process_update_keeps_service_written (update : Update) (w : World) :
  service_written (redis w) ->
  service_written (redis (process_update E update w).2).
Proof. apply process_update_respects_service_written. Qed.

(** *** The state-triggered handlers never write the store *)

Lemma same_store_trans (a b c : World) :
  same_store a b -> same_store b c -> same_store a c.
Proof. unfold same_store. congruence. Qed.

Lemma same_store_handlers (update : Update) :
  respects same_store (process_question E update) /\
  respects same_store (process_recommendation E update).
Proof.
  destruct (client_id_of_cases update) as [[Hnone _]|(cid & Hcid & _)].
  - split; intros w.
    + rewrite (handler_without_message (process_question E) 1%nat)
        by (first [done | do 3 right; left; reflexivity]). done.
    + rewrite (handler_without_message (process_recommendation E) 1%nat)
        by (first [done | do 5 right; left; reflexivity]). done.
  - split.
    + apply process_question_respects with (cid := cid);
        first [ exact Hcid | exact same_store_trans
              | exact (fun w => eq_refl) | exact (fun _ w => eq_refl)
              | exact (fun _ _ _ w => eq_refl) ].
    + apply process_recommendation_respects with (cid := cid);
        first [ exact Hcid | exact same_store_trans
              | exact (fun w => eq_refl) | exact (fun _ w => eq_refl)
              | exact (fun _ _ _ w => eq_refl) ].
Qed.

(** X5.  Whatever the collaborators do, and whether they return or raise,
    the [question] and [recommendation] handlers leave the session store
    exactly as it was: a failure inside them cannot corrupt or move the
    user's state. *)
Theorem state_triggered_handlers_never_write (update : Update) (w : World) :
  redis (process_question E update w).2 = redis w /\
  redis (process_recommendation E update w).2 = redis w.
Proof.
  destruct (same_store_handlers update) as [Hq Hr].
  split; [apply Hq|apply Hr].
Qed.

(** *** Outcomes of single calls, whatever the collaborators do *)

Lemma hmset_outcome (key : Z) (value : gmap string string) (w w' : World)
    (o : outcome unit) :
  RedisClient.hmset E key value w = (o, w') ->
  (o = Return tt /\
   w' = set_redis (fun r => <[key := value ∪ default ∅ (r !! key)]> r)
          (add_call (RedisHSet key value) w)) \/
  (o = Raise (CollaboratorError (RedisHSet key value)) /\
   w' = add_call (RedisHSet key value) w).
Proof.
  unfold RedisClient.hmset, external.
  destruct (fails E (calls w) _); intros [= <- <-]; auto.
Qed.

Lemma send_message_outcome (cid : Z) (t : string) (pm : option string)
    (rm : option ReplyMarkup) (w w' : World)
    (o : outcome TelegramAPISendMessageResponse) :
  TelegramClient.send_message E cid t pm rm w = (o, w') ->
  (o = Return (telegram_api E (calls w) (mkSendMessage cid t pm rm)) /\
   w' = add_delivered (mkSendMessage cid t pm rm)
          (add_call (TelegramSendMessage (mkSendMessage cid t pm rm)) w)) \/
  (o = Raise (CollaboratorError
                (TelegramSendMessage (mkSendMessage cid t pm rm))) /\
   w' = add_call (TelegramSendMessage (mkSendMessage cid t pm rm)) w).
Proof.
  unfold TelegramClient.send_message, external.
  destruct (fails E (calls w) _); intros [= <- <-]; auto.
Qed.

(** A handler of the shape shared by the three state writers: read the
    sender, write the state, send one message. *)
Lemma state_writer_outcome (s : States) (t : string) (markup : ReplyMarkup)
    (update : Update) (m : Message) (w w' : World)
    (o : outcome (list TelegramAPISendMessageResponse)) :
  message update = Some m ->
  (let! client_id := lift (client_id_of update) in
   do! RedisClient.hmset E client_id (to_dict (mkStateInformation (Some s))) in
   let! r := TelegramClient.send_message E client_id t None (Some markup) in
   ret [r]) w = (o, w') ->
  (o = Raise (CollaboratorError
                (RedisHSet (sender m) (to_dict (mkStateInformation (Some s))))) /\
   redis w' = redis w) \/
  ((exists h,
      o = Return [telegram_api E h
                    (mkSendMessage (sender m) t None (Some markup))]) \/
   o = Raise (CollaboratorError
                (TelegramSendMessage
                   (mkSendMessage (sender m) t None (Some markup))))) /\
  redis w' = <[sender m := {[ "state" := States_value s ]}
                           ∪ default ∅ (redis w !! sender m)]> (redis w).
Proof.
  intros Hm. rewrite (client_id_of_message _ _ Hm). mlift.
  unfold bind.
  destruct (RedisClient.hmset E _ _ w) as [o1 w1] eqn:Hset.
  apply hmset_outcome in Hset as [[-> ->]|[-> ->]].
  - destruct (TelegramClient.send_message E _ _ _ _ _) as [o2 w2] eqn:Hsend.
    apply send_message_outcome in Hsend as [[-> ->]|[-> ->]].
    + intros [= <- <-]. right. split; [left; eauto|done].
    + intros [= <- <-]. right. split; [by right|done].
  - intros [= <- <-]. by left.
Qed.

(** X6.  A crash between the state write and the reply leaves the next
    state stored: when [return_to_main_menu], [question_about_program] or
    [get_recommendation] raises because its message could not be sent, the
    sender's record already holds the state the handler was moving to. *)
Theorem state_written_before_reply (h : UpdateHandler) (s : States)
    (update : Update) (m : Message) (w w' : World) (unsent : SendMessage) :
  In (h, s) (state_writers E) ->
  message update = Some m ->
  h update w = (Raise (CollaboratorError (TelegramSendMessage unsent)), w') ->
  exists record,
    redis w' !! sender m = Some record /\
    record !! "state" = Some (States_value s).
Proof.
  intros Hin Hm Hrun.
  assert (Hredis : redis w' = <[sender m := {[ "state" := States_value s ]}
                      ∪ default ∅ (redis w !! sender m)]> (redis w)).
  { destruct Hin as [[= <- <-]|[[= <- <-]|[[= <- <-]|[]]]].
    all: apply (state_writer_outcome _ _ _ _ _ _ _ _ Hm) in Hrun
           as [[Hbad _]|[_ Hredis]]; [discriminate Hbad|exact Hredis]. }
  rewrite Hredis, lookup_insert_eq. eexists. split; [done|].
  apply state_record_merge.
Qed.

(** X7.  An error that [process_update] recovers from with a reply leaves
    the user in the main menu: when the [try] block raises and the result
    is not empty, the result is the single main-menu reply and the sender's
    record holds [state = main_menu]. *)
Theorem recovered_reply_means_main_menu (update : Update) (w w1 w2 : World)
    (e : exn) (result : list TelegramAPISendMessageResponse) :
  process_update_attempt E update w = (Raise e, w1) ->
  process_update E update w = (Return result, w2) ->
  result <> [] ->
  exists m h record,
    message update = Some m /\
    result = [telegram_api E h (main_menu_message (sender m))] /\
    redis w2 !! sender m = Some record /\
    record !! "state" = Some "main_menu".
Proof.
  intros Hattempt Hrun Hne.
  rewrite process_update_cases, Hattempt in Hrun.
  destruct (message update) as [m|] eqn:Hm.
  - destruct (process_return_to_main_menu E update _) as [o w3] eqn:Hdefault.
    apply (state_writer_outcome _ _ _ _ _ _ _ _ Hm) in Hdefault
      as [[-> _] | [[[h ->] | ->] Hredis]].
    + by injection Hrun as <- _.
    + injection Hrun as <- <-. world_projections.
      exists m, h. eexists. split; [done|]. split; [done|].
      rewrite Hredis, lookup_insert_eq. split; [done|].
      apply (state_record_merge MAIN_MENU).
    + by injection Hrun as <- _.
  - rewrite (handler_without_message (process_return_to_main_menu E) 0%nat)
      in Hrun by (first [done | right; left; reflexivity]).
    by injection Hrun as <- _.
Qed.

(** *** The resolver and the services *)

(** X8.  Whatever the store answers, the state resolver only reads: it
    makes the one [HGETALL] call and nothing else, so it never deletes a
    field, never writes the store and never sends a message. *)
Theorem get_client_state_information_only_reads (client_id : Z) (w : World) :
  calls (get_client_state_information E client_id w).2
  = (calls w ++ [RedisHGetAll client_id])%list /\
  redis (get_client_state_information E client_id w).2 = redis w /\
  delivered (get_client_state_information E client_id w).2 = delivered w /\
  user_specifics (get_client_state_information E client_id w).2
  = user_specifics w.
Proof.
  unfold get_client_state_information, RedisClient.hgetall, external, bind.
  destruct (fails E (calls w) _); [done|].
  cbn [fst snd]. world_projections.
  destruct (decide (_ = ∅)); [done|].
  unfold try_except, bind, lift.
  destruct (decode_response _) as [decoded|[]]; try done.
  by destruct (StateInformation_init _ _) as [si|[]].
Qed.

(** X9.  [get_programs] raises only when the query itself fails: with the
    query answered it returns the rows in the database's order, and an
    empty table gives the empty list, not an error. *)
Theorem get_programs_outcome (w : World) :
  (SupportedProgrammsService.get_programs E w).1
  = if fails E (calls w) ReadAllProgramms
    then Raise (CollaboratorError ReadAllProgramms)
    else Return (order_by_name E (supported_programms w)).
Proof.
  unfold SupportedProgrammsService.get_programs,
    SupportedProgrammsRepository.read_all, bind, logger, try_except, external.
  world_projections.
  destruct (fails E (calls w) ReadAllProgramms); [done|].
  by destruct (order_by_name E (supported_programms w)).
Qed.

(** X10.  [get_user_specifics] validates the identifier before it queries:
    a non-positive identifier raises [ValidationError] with no query made;
    otherwise it raises only when the query fails, and a user without
    notes gets the empty list, not an error. *)
Theorem get_user_specifics_outcome (user_id : Z) (w : World) :
  (user_id <= 0 ->
   (UserSpecificsService.get_user_specifics E user_id w).1
   = Raise ValidationError /\
   calls (UserSpecificsService.get_user_specifics E user_id w).2 = calls w) /\
  (0 < user_id ->
   (UserSpecificsService.get_user_specifics E user_id w).1
   = if fails E (calls w) (ReadListedUserSpecifics user_id)
     then Raise (CollaboratorError (ReadListedUserSpecifics user_id))
     else Return (order_by_specific E
                    (filter (fun r => us_user_id r = user_id)
                            (user_specifics w)))).
Proof.
  unfold UserSpecificsService.get_user_specifics,
    UserSpecificsRepository.read_listed, ReadUserSpecificCommand,
    bind, lift, logger, try_except, external.
  split; intros Hid.
  - replace (0 <? user_id) with false by (symmetry; apply Z.ltb_ge; lia).
    done.
  - replace (0 <? user_id) with true by (symmetry; apply Z.ltb_lt; lia).
    world_projections.
    destruct (fails E (calls w) _); [done|].
    by destruct (order_by_specific E _).
Qed.

(** X11.  [create_user_specific] is all or nothing: when it returns, the
    identifier is positive and exactly one row, holding that identifier
    and the given text, was appended to the table; when it raises, the
    table is as before. *)
Theorem create_user_specific_all_or_nothing (user_id : Z)
    (text : option string) (w : World) :
  match UserSpecificsService.create_user_specific E user_id text w with
  | (Return row, w') =>
    0 < user_id /\ text = Some (specific row) /\ us_user_id row = user_id /\
    user_specifics w' = (user_specifics w ++ [row])%list
  | (Raise _, w') => user_specifics w' = user_specifics w
  end.
Proof.
  unfold UserSpecificsService.create_user_specific, CreateUserSpecificCommand,
    UserSpecificsRepository.create, bind, lift, external.
  destruct text as [t|]; [|done].
  destruct (0 <? user_id) eqn:Hpos; [|done].
  apply Z.ltb_lt in Hpos. cbn [us_user_id specific].
  by destruct (fails E (calls w) _).
Qed.

(** *** The state machine *)

Lemma text_routing_other (t : string) :
  t <> "/start" -> t <> "❓ Задать вопрос о программе" ->
  t <> "❗️ Получить рекоммендацию" -> t <> "Вернуться в главное меню" ->
  text_routing E !! t = None.
Proof.
  intros H1 H2 H3 H4. unfold text_routing.
  rewrite !lookup_insert_ne by done. by rewrite lookup_singleton_ne.
Qed.

Lemma text_routing_ask :
  text_routing E !! "❓ Задать вопрос о программе"
  = Some (mkFSMRouter (process_question_about_program E) (fun _ => true)).
Proof. reflexivity. Qed.

Lemma text_routing_recommend :
  text_routing E !! "❗️ Получить рекоммендацию"
  = Some (mkFSMRouter (process_get_recommendation E) (fun _ => true)).
Proof. reflexivity. Qed.

Lemma stored_state_is_record (w : World) (cid : Z) (s : States) :
  redis w !! cid = Some {[ "state" := States_value s ]} ->
  stored_state_is E w cid s.
Proof.
  intros Hrecord.
  exists {[ "state" := States_value s ]}, {[ "state" := States_value s ]}.
  split; [exact Hrecord|].
  destruct (forbid_extra E); destruct s; split; vm_compute; reflexivity.
Qed.

Lemma get_client_state_information_record (cid : Z) (current : option States)
    (w : World) :
  healthy E ->
  redis w !! cid = record_of current ->
  get_client_state_information E cid w
  = (Return ((fun s => mkStateInformation (Some s)) <$> current),
     add_call (RedisHGetAll cid) w).
Proof.
  intros Hhealthy Hrecord. destruct current as [s|]; cbn in *.
  - by apply get_client_state_information_stored, stored_state_is_record.
  - unfold get_client_state_information.
    rewrite (bind_Return _ _ _ _ _ (redis_hgetall_healthy Hhealthy cid w)).
    rewrite Hrecord. cbn [default from_option]. by rewrite decide_True.
Qed.

Lemma merge_into_record (cid : Z) (s : States) (current : option States)
    (store : gmap Z (gmap string string)) :
  store !! cid = record_of current ->
  {[ "state" := States_value s ]} ∪ default ∅ (store !! cid)
  = ({[ "state" := States_value s ]} : gmap string string).
Proof.
  intros ->. apply state_record_merge.
  destruct current as [s'|]; cbn.
  - by rewrite dom_singleton_L.
  - by rewrite dom_empty_L.
Qed.

Lemma state_writer_healthy (h : UpdateHandler) (s : States) (update : Update)
    (m : Message) (w : World) :
  healthy E ->
  In (h, s) (state_writers E) ->
  message update = Some m ->
  exists r w',
    h update w = (Return [r], w') /\
    redis w' = <[sender m := {[ "state" := States_value s ]}
                             ∪ default ∅ (redis w !! sender m)]> (redis w) /\
    supported_programms w' = supported_programms w.
Proof.
  intros Hhealthy Hin Hm.
  destruct Hin as [[= <- <-]|[[= <- <-]|[[= <- <-]|[]]]].
  all: unfold process_return_to_main_menu, process_question_about_program,
         process_get_recommendation.
  all: rewrite (client_id_of_message _ _ Hm); mlift.
  all: mstep redis_hmset_healthy; mstep send_message_healthy.
  all: eexists _, _; split; [reflexivity|]; world_projections; done.
Qed.

Lemma process_start_command_healthy (update : Update) (m : Message)
    (w : World) :
  healthy E ->
  message update = Some m ->
  exists h1 h2 w',
    process_start_command E update w
    = (Return [telegram_api E h1
                 (greeting (sender m) (order_by_name E (supported_programms w)));
               telegram_api E h2 (main_menu_message (sender m))], w') /\
    redis w' = <[sender m := main_menu_record]> (redis w) /\
    delivered w'
    = (delivered w ++
       [greeting (sender m) (order_by_name E (supported_programms w));
        main_menu_message (sender m)])%list.
Proof.
  intros Hhealthy Hm. unfold process_start_command.
  rewrite (client_id_of_message _ _ Hm). mlift.
  mstep redis_delete_healthy. mstep redis_hmset_healthy.
  mstep get_programs_healthy. mstep send_message_healthy.
  match goal with
  | |- context [bind (process_return_to_main_menu E update) _ ?w0] =>
    destruct (process_return_to_main_menu_healthy update m w0 Hhealthy Hm)
      as (w' & Hrun & _ & Hdelivered & Hredis)
  end.
  erewrite bind_Return by exact Hrun.
  eexists _, _, _. split; [reflexivity|].
  rewrite Hdelivered, Hredis. world_projections.
  split; [|by rewrite <- !app_assoc].
  rewrite lookup_insert_eq. cbn [default from_option]. unfold id.
  rewrite insert_insert_eq, lookup_delete_eq. cbn [default from_option].
  rewrite insert_delete_eq.
  change (to_dict (mkStateInformation (Some MAIN_MENU))) with main_menu_record.
  by rewrite (right_id_L ∅ (∪)), (idemp_L (∪)).
Qed.

Lemma run_selected_returned (h : UpdateHandler) (update : Update)
    (w w' : World) (result : list TelegramAPISendMessageResponse) :
  h update w = (Return result, w') ->
  run_selected E h update w
  = (Return result, add_log (INFO, "Processing result: %s.") w').
Proof.
  intros Hrun. unfold run_selected, bind, try_except, logger, ret.
  by rewrite Hrun.
Qed.

Lemma run_recovery_healthy (update : Update) (m : Message) (w : World) :
  healthy E ->
  message update = Some m ->
  exists h w',
    run_recovery E update w
    = (Return [telegram_api E h (main_menu_message (sender m))], w') /\
    redis w' = <[sender m := main_menu_record
                             ∪ default ∅ (redis w !! sender m)]> (redis w) /\
    supported_programms w' = supported_programms w.
Proof.
  intros Hhealthy Hm.
  destruct (process_return_to_main_menu_healthy update m
              (add_log (ERROR, "Unexpected error when processing update: %s") w)
              Hhealthy Hm) as (w' & Hrun & _ & _ & Hredis).
  unfold run_recovery, process_update_recovery, bind, try_except, logger, ret.
  rewrite Hrun. eexists _, _. split; [reflexivity|]. world_projections.
  split; [exact Hredis|].
  unfold process_return_to_main_menu in Hrun.
  rewrite (client_id_of_message _ _ Hm) in Hrun.
  revert Hrun. mlift. mstep redis_hmset_healthy. mstep send_message_healthy.
  intros Heq. apply (f_equal snd) in Heq. cbn [snd] in Heq. by rewrite <- Heq.
Qed.

Lemma process_update_by_trigger (h : UpdateHandler) (update : Update)
    (m : Message) (t : string) (current : option States) (w : World) :
  healthy E ->
  message update = Some m -> text m = Some t -> t <> "" ->
  text_routing E !! t = Some (mkFSMRouter h (fun _ => true)) ->
  redis w !! sender m = record_of current ->
  process_update E update w
  = run_selected E h update
      (add_call (RedisHGetAll (sender m))
         (add_log (INFO, "Processing update: %s of type %s.") w)).
Proof.
  intros Hhealthy Hm Ht Hne Htext Hrecord.
  destruct (process_update_selected update m t w _ _ Hm Ht Hne
              (get_client_state_information_record (sender m) current
                 (add_log (INFO, "Processing update: %s of type %s.") w)
                 Hhealthy Hrecord)) as [_ Hrun].
  { left. by rewrite Htext. }
  rewrite Hrun. unfold resolve_handler_spec. by rewrite Htext.
Qed.

Lemma process_update_by_state_writer (h : UpdateHandler) (s : States)
    (update : Update) (m : Message) (t : string) (current : option States)
    (w : World) :
  healthy E ->
  message update = Some m -> text m = Some t -> t <> "" ->
  text_routing E !! t = Some (mkFSMRouter h (fun _ => true)) ->
  In (h, s) (state_writers E) ->
  redis w !! sender m = record_of current ->
  exists r w',
    process_update E update w = (Return [r], w') /\
    redis w' = <[sender m := {[ "state" := States_value s ]}]> (redis w) /\
    supported_programms w' = supported_programms w.
Proof.
  intros Hhealthy Hm Ht Hne Htext Hin Hrecord.
  rewrite (process_update_by_trigger h _ _ _ current _ Hhealthy Hm Ht Hne
             Htext Hrecord).
  destruct (state_writer_healthy h s update m
              (add_call (RedisHGetAll (sender m))
                 (add_log (INFO, "Processing update: %s of type %s.") w))
              Hhealthy Hin Hm) as (r & w' & Hrun & Hredis & Hcatalog).
  rewrite (run_selected_returned _ _ _ _ _ Hrun).
  eexists _, _. split; [reflexivity|]. world_projections.
  rewrite Hredis, Hcatalog. world_projections.
  by rewrite (merge_into_record _ _ current).
Qed.

(** X12.  The transition function of the conversation.  With every
    collaborator answering, for a client with a positive identifier whose
    session record is absent or was written by the service, a text message
    is answered with at least one reply and leaves the client's record
    holding exactly the state [next_state] names: the four literal
    triggers lead to their states from anywhere, any other text keeps
    QUESTIONS and RECOMMENDATION and leads to MAIN_MENU otherwise. *)
Theorem process_update_transition (update : Update) (m : Message)
    (t : string) (current : option States) (w : World) :
  healthy E ->
  message update = Some m -> text m = Some t -> t <> "" ->
  0 < sender m ->
  redis w !! sender m = record_of current ->
  exists result w',
    process_update E update w = (Return result, w') /\
    result <> [] /\
    redis w'
    = <[sender m := {[ "state" := States_value (next_state t current) ]}]>
        (redis w).
Proof.
  intros Hhealthy Hm Ht Hne Hpos Hrecord. unfold next_state.
  destruct (decide (t = "/start")) as [->|H1].
  { rewrite (process_update_by_trigger _ _ _ _ current _ Hhealthy Hm Ht Hne
               text_routing_start Hrecord).
    destruct (process_start_command_healthy update m
                (add_call (RedisHGetAll (sender m))
                   (add_log (INFO, "Processing update: %s of type %s.") w))
                Hhealthy Hm) as (h1 & h2 & w' & Hrun & Hredis & _).
    rewrite (run_selected_returned _ _ _ _ _ Hrun).
    eexists _, _. split; [reflexivity|]. split; [done|].
    world_projections. by rewrite Hredis. }
  destruct (decide (t = "❓ Задать вопрос о программе")) as [->|H2].
  { destruct (process_update_by_state_writer _ QUESTIONS _ _ _ current w
                Hhealthy Hm Ht Hne text_routing_ask)
      as (r & w' & -> & Hredis & _);
      [right; left; reflexivity|done|].
    eexists _, _. split; [reflexivity|]. split; [done|exact Hredis]. }
  destruct (decide (t = "❗️ Получить рекоммендацию")) as [->|H3].
  { destruct (process_update_by_state_writer _ RECOMMENDATION _ _ _ current w
                Hhealthy Hm Ht Hne text_routing_recommend)
      as (r & w' & -> & Hredis & _);
      [do 2 right; left; reflexivity|done|].
    eexists _, _. split; [reflexivity|]. split; [done|exact Hredis]. }
  destruct (decide (t = "Вернуться в главное меню")) as [->|H4].
  { destruct (process_update_by_state_writer _ MAIN_MENU _ _ _ current w
                Hhealthy Hm Ht Hne text_routing_return)
      as (r & w' & -> & Hredis & _);
      [left; reflexivity|done|].
    eexists _, _. split; [reflexivity|]. split; [done|exact Hredis]. }
  pose proof (text_routing_other t H1 H2 H3 H4) as Htext.
  pose proof (get_client_state_information_record (sender m) current
                (add_log (INFO, "Processing update: %s of type %s.") w)
                Hhealthy Hrecord) as Hstate.
  destruct current as [s|]; cbn [fmap option_fmap option_map] in Hstate.
  - destruct (process_update_selected update m t w _ _ Hm Ht Hne Hstate)
      as [_ Hrun]; [by right|].
    rewrite Hrun. unfold resolve_handler_spec. rewrite Htext.
    cbn [mbind option_bind state].
    assert (Hsame : redis w
                    = <[sender m := {[ "state" := States_value s ]}]> (redis w))
      by (symmetry; by apply insert_id).
    destruct s.
    + rewrite state_routing_main_menu.
      destruct (state_writer_healthy (process_return_to_main_menu E) MAIN_MENU
                  update m
                  (add_call (RedisHGetAll (sender m))
                     (add_log (INFO, "Processing update: %s of type %s.") w))
                  Hhealthy (or_introl eq_refl) Hm)
        as (r & w' & Hh & Hredis & _).
      rewrite (run_selected_returned _ _ _ _ _ Hh).
      eexists _, _. split; [reflexivity|]. split; [done|].
      world_projections. rewrite Hredis. world_projections.
      by rewrite (merge_into_record _ _ (Some MAIN_MENU)).
    + rewrite state_routing_questions. cbn [validator handler].
      destruct (process_question_healthy Hhealthy update m t
                  (add_call (RedisHGetAll (sender m))
                     (add_log (INFO, "Processing update: %s of type %s.") w))
                  Hm Ht) as (w' & Hh & _ & _ & Hredis & _).
      rewrite (run_selected_returned _ _ _ _ _ Hh).
      eexists _, _. split; [reflexivity|]. split; [done|].
      world_projections. by rewrite Hredis.
    + rewrite state_routing_recommendation. cbn [validator handler].
      destruct (process_recommendation_healthy Hhealthy update m t
                  (add_call (RedisHGetAll (sender m))
                     (add_log (INFO, "Processing update: %s of type %s.") w))
                  Hm Ht Hpos) as (w' & Hh & _ & _ & Hredis & _).
      rewrite (run_selected_returned _ _ _ _ _ Hh).
      eexists _, _. split; [reflexivity|]. split; [done|].
      world_projections. by rewrite Hredis.
  - destruct (process_update_unrouted update m t w _ Hm Ht Hne Hstate Htext)
      as [_ Hrun].
    rewrite Hrun.
    destruct (run_recovery_healthy update m
                (add_call (RedisHGetAll (sender m))
                   (add_log (INFO, "Processing update: %s of type %s.") w))
                Hhealthy Hm) as (h & w' & -> & Hredis & _).
    eexists _, _. split; [reflexivity|]. split; [done|].
    rewrite Hredis. world_projections.
    change main_menu_record
      with ({[ "state" := States_value MAIN_MENU ]} : gmap string string).
    by rewrite (merge_into_record _ _ None).
Qed.

(** *** [/start] and a two-step conversation *)

Lemma get_client_state_information_decodable (cid : Z) (w : World)
    (decoded : gmap string string) :
  healthy E ->
  decode_response (default ∅ (redis w !! cid)) = Return decoded ->
  exists client_state w1,
    get_client_state_information E cid w = (Return client_state, w1) /\
    redis w1 = redis w /\ delivered w1 = delivered w /\
    supported_programms w1 = supported_programms w.
Proof.
  intros Hhealthy Hdec. unfold get_client_state_information.
  rewrite (bind_Return _ _ _ _ _ (redis_hgetall_healthy Hhealthy cid w)).
  destruct (decide (_ = ∅)); [by eexists _, _|].
  unfold try_except, bind, lift, logger, ret. rewrite Hdec.
  destruct (StateInformation_init _ _) as [si|e] eqn:Hinit.
  - by eexists _, _.
  - apply StateInformation_init_raises in Hinit as ->. by eexists _, _.
Qed.

(** X13.  [/start] is a hard reset from any record that can be read.  With
    every collaborator answering and whatever the sender's record holds
    (nothing, an unknown state, further fields), the result is the greeting,
    with one link button per program in the catalog's order, followed by
    the main menu, and the record becomes exactly [state = main_menu]. *)
Theorem start_resets_and_greets (update : Update) (m : Message) (w : World)
    (decoded : gmap string string) :
  healthy E ->
  message update = Some m -> text m = Some "/start" ->
  decode_response (default ∅ (redis w !! sender m)) = Return decoded ->
  exists h1 h2 w',
    process_update E update w
    = (Return [telegram_api E h1
                 (greeting (sender m) (order_by_name E (supported_programms w)));
               telegram_api E h2 (main_menu_message (sender m))], w') /\
    redis w' = <[sender m := main_menu_record]> (redis w) /\
    delivered w'
    = (delivered w ++
       [greeting (sender m) (order_by_name E (supported_programms w));
        main_menu_message (sender m)])%list.
Proof.
  intros Hhealthy Hm Ht Hdec.
  destruct (get_client_state_information_decodable (sender m)
              (add_log (INFO, "Processing update: %s of type %s.") w)
              decoded Hhealthy Hdec)
    as (client_state & w1 & Hstate & Hredis1 & Hdelivered1 & Hcatalog1).
  destruct (process_update_selected update m "/start" w w1 client_state
              Hm Ht ltac:(discriminate) Hstate) as [_ Hrun].
  { left. by rewrite text_routing_start. }
  rewrite Hrun. unfold resolve_handler_spec. rewrite text_routing_start.
  cbn [validator handler].
  destruct (process_start_command_healthy update m w1 Hhealthy Hm)
    as (h1 & h2 & w' & Hh & Hredis & Hdelivered).
  rewrite (run_selected_returned _ _ _ _ _ Hh).
  rewrite Hcatalog1 in *. world_projections.
  eexists _, _, _. split; [reflexivity|]. world_projections.
  by rewrite Hredis, Hdelivered, Hredis1, Hdelivered1.
Qed.

(** X14.  Two updates in a row.  With every collaborator answering, a
    client whose record is absent or was written by the service presses
    "ask a question about a program" and then types a text that is no
    literal trigger: the second update is answered with the Answering
    Service's answer to exactly that text, computed from the catalog's
    URLs, and the client is in state QUESTIONS. *)
Theorem ask_then_question_is_answered (first second : Update)
    (m1 m2 : Message) (t : string) (current : option States) (w : World) :
  healthy E ->
  message first = Some m1 -> text m1 = Some ask_button ->
  message second = Some m2 -> text m2 = Some t -> sender m2 = sender m1 ->
  t <> "" -> text_routing E !! t = None ->
  redis w !! sender m1 = record_of current ->
  exists h w2,
    process_update E second (process_update E first w).2
    = (Return [telegram_api E h
                 (mkSendMessage (sender m2)
                    (openai_answer E
                       (map website_url (order_by_name E (supported_programms w)))
                       (Some t))
                    (Some "Markdown") None)], w2) /\
    redis w2 !! sender m2 = Some {[ "state" := States_value QUESTIONS ]}.
Proof.
  intros Hhealthy Hm1 Ht1 Hm2 Ht2 Hsame Hne Htext Hrecord.
  destruct (process_update_by_state_writer (process_question_about_program E)
              QUESTIONS first m1 ask_button current w Hhealthy Hm1 Ht1
              ltac:(discriminate) text_routing_ask
              ltac:(right; left; reflexivity) Hrecord)
    as (r & w1 & Hfirst & Hredis1 & Hcatalog1).
  rewrite Hfirst. cbn [snd].
  assert (Hstored : stored_state_is E w1 (sender m2) QUESTIONS).
  { apply stored_state_is_record. by rewrite Hsame, Hredis1, lookup_insert_eq. }
  rewrite (process_update_state_route _ _ _ _ _ Hhealthy Hm2 Ht2 Hne Htext
             Hstored).
  unfold resolve_handler_spec. rewrite Htext.
  cbn [mbind option_bind state]. rewrite state_routing_questions.
  cbn [validator handler].
  destruct (process_question_healthy Hhealthy second m2 t
              (add_call (RedisHGetAll (sender m2))
                 (add_log (INFO, "Processing update: %s of type %s.") w1))
              Hm2 Ht2) as (w2 & Hrun & _ & _ & Hredis2 & _).
  rewrite (run_selected_returned _ _ _ _ _ Hrun).
  revert Hrun Hredis2. world_projections. rewrite Hcatalog1.
  intros Hrun Hredis2.
  eexists _, _. split; [reflexivity|]. world_projections.
  by rewrite Hredis2, Hsame, Hredis1, lookup_insert_eq.
Qed.

(** *** The webhook route *)

(** X15.  The webhook route never raises to the HTTP layer for a body that
    validates or fails validation: an invalid body is dropped with no
    external call, no message and no change of the store; a valid one has
    exactly the effects of [process_update] on its model. *)
Theorem handle_client_bot_update_outcome {Raw : Type}
    (Update_validate : Raw -> outcome Update) (raw : Raw) (w : World) :
  (Update_validate raw = Raise ValidationError ->
   Webhook.handle_client_bot_update E Update_validate raw w = (Return tt, w)) /\
  (forall update, Update_validate raw = Return update ->
   Webhook.handle_client_bot_update E Update_validate raw w
   = (Return tt, (process_update E update w).2)).
Proof.
  unfold Webhook.handle_client_bot_update, bind, try_except, lift, ret.
  split.
  - by intros ->.
  - intros update ->.
    destruct (process_update_returns update w) as (result & w' & ->). done.
Qed.

(** *** The response collector of the OpenAI client *)

Lemma status_is_2xx (s : Z) : s / 100 = 2 <-> 200 <= s <= 299.
Proof.
  pose proof (Z.div_mod s 100 ltac:(lia)).
  pose proof (Z.mod_pos_bound s 100 ltac:(lia)).
  lia.
Qed.

(** X16.  [collect_response] gives a model exactly when the request
    returned a response with a status from 200 to 299 whose body decodes
    and validates; every other status, and every exception of the request
    itself, becomes an error. *)
Theorem collect_response_model_iff {J A : Type} (parse_obj_as : J -> outcome A)
    (fn : outcome (OpenaiHandlers.Response J)) (model : A) :
  OpenaiHandlers.collect_response parse_obj_as fn = OpenaiHandlers.Model model
  <->
  exists response body,
    fn = Return response /\
    200 <= OpenaiHandlers.status_code response <= 299 /\
    OpenaiHandlers.response_json response = Return body /\
    parse_obj_as body = Return model.
Proof.
  unfold OpenaiHandlers.collect_response. split.
  - destruct fn as [response|]; [|discriminate].
    case_bool_decide as Hblocked; [discriminate|].
    case_bool_decide as Hstatus; [discriminate|].
    destruct (OpenaiHandlers.response_json response) as [body|] eqn:Hjson;
      [|discriminate].
    destruct (parse_obj_as body) as [model'|[]] eqn:Hparse; try discriminate.
    intros [= ->]. exists response, body.
    split; [done|]. split; [|done].
    apply status_is_2xx. destruct (decide (OpenaiHandlers.status_code response / 100 = 2)); [done|].
    by destruct Hstatus.
  - intros (response & body & -> & Hstatus & Hjson & Hparse).
    rewrite bool_decide_false by lia.
    apply status_is_2xx in Hstatus.
    rewrite bool_decide_false by (rewrite Hstatus; intros Hbad; by apply Hbad).
    by rewrite Hjson, Hparse.
Qed.


(** *** C10: the state resolver, by stored record *)

Lemma decode_items_raises (items : list (string * string)) (e : exn) :
  decode_items items = Raise e -> e = UnicodeDecodeError.
Proof.
  induction items as [|[k v] rest IH]; simpl; [discriminate|].
  unfold bytes_decode.
  destruct (utf8_valid k); [|congruence].
  destruct (utf8_valid v); [|congruence].
  destruct (decode_items rest) as [rest'|e']; [discriminate|].
  intros [= <-]. by apply IH.
Qed.

Lemma decode_response_raises (response : gmap string string) (e : exn) :
  decode_response response = Raise e ->
  e = UnicodeDecodeError /\ response <> ∅.
Proof.
  unfold decode_response.
  destruct (decode_items (map_to_list response)) as [items|e'] eqn:Hd;
    [discriminate|].
  intros [= <-]. split; [by eapply decode_items_raises|].
  intros ->. by rewrite map_to_list_empty in Hd.
Qed.

(** C10.  When the store answers the read, the stored record fixes the
    resolver's outcome.  An empty record gives [None].  A record that
    decodes but does not validate as a [StateInformation] (unknown state
    value, or a field the model forbids) is logged as an error and gives
    [None].  A record with a key or a value that is not valid UTF-8 makes
    the resolver raise [UnicodeDecodeError] to its caller, with nothing
    logged: the decoding sits inside the [try], but the [except] clause
    names [pydantic.ValidationError] only. *)
Theorem get_client_state_information_by_record (client_id : Z) (w : World) :
  fails E (calls w) (RedisHGetAll client_id) = false ->
  (default ∅ (redis w !! client_id) = ∅ ->
   get_client_state_information E client_id w
   = (Return None, add_call (RedisHGetAll client_id) w)) /\
  (forall decoded e,
     decode_response (default ∅ (redis w !! client_id)) = Return decoded ->
     StateInformation_init (forbid_extra E) decoded = Raise e ->
     get_client_state_information E client_id w
     = (Return None,
        add_log (ERROR, "Unexpected error when parsing redis hashmap: %s")
          (add_call (RedisHGetAll client_id) w))) /\
  (forall e,
     decode_response (default ∅ (redis w !! client_id)) = Raise e ->
     get_client_state_information E client_id w
     = (Raise UnicodeDecodeError, add_call (RedisHGetAll client_id) w)).
Proof.
  intros Hok.
  unfold get_client_state_information, RedisClient.hgetall, bind.
  rewrite (external_ok _ _ _ Hok). cbn [fst snd].
  change (redis (add_call (RedisHGetAll client_id) w)) with (redis w).
  set (record := default ∅ (redis w !! client_id)).
  split; [|split].
  - intros ->. by rewrite decide_True.
  - intros decoded e Hdec Hinit.
    pose proof (decode_response_id _ _ Hdec) as ->.
    pose proof (StateInformation_init_raises _ _ _ Hinit) as ->.
    destruct (decide (record = ∅)) as [Hempty|_].
    { rewrite Hempty, StateInformation_init_empty in Hinit. discriminate. }
    unfold try_except, lift, logger, ret. by rewrite Hdec, Hinit.
  - intros e Hdec.
    destruct (decode_response_raises _ _ Hdec) as [-> Hne].
    rewrite decide_False by exact Hne.
    unfold try_except, lift, bind, raise. by rewrite Hdec.
Qed.

(** *** C2: handler resolution by trigger priority *)

Lemma run_recovery_cases (update : Update) (w : World) :
  run_recovery E update w =
    match process_return_to_main_menu E update
            (add_log (ERROR, "Unexpected error when processing update: %s") w)
    with
    | (Return result, w2) =>
      (Return result, add_log (INFO, "Processing result: %s.") w2)
    | (Raise _, w2) =>
      (Return [],
       add_log (INFO, "Processing result: %s.")
         (add_log (ERROR, "While handling previous exception, another was raised: %s")
            w2))
    end.
Proof.
  unfold run_recovery, process_update_recovery, bind, try_except, logger, ret.
  by destruct (process_return_to_main_menu E update _) as [[result|e] w2].
Qed.

Lemma run_selected_cases (h : UpdateHandler) (update : Update) (w : World) :
  run_selected E h update w =
    match h update w with
    | (Return result, w1) =>
      (Return result, add_log (INFO, "Processing result: %s.") w1)
    | (Raise _, w1) =>
      match process_return_to_main_menu E update
              (add_log (ERROR, "Unexpected error when processing update: %s") w1)
      with
      | (Return result, w2) =>
        (Return result, add_log (INFO, "Processing result: %s.") w2)
      | (Raise _, w2) =>
        (Return [],
         add_log (INFO, "Processing result: %s.")
           (add_log (ERROR, "While handling previous exception, another was raised: %s")
              w2))
      end
    end.
Proof.
  unfold run_selected, process_update_recovery, bind, try_except, logger, ret.
  destruct (h update w) as [[result|e] w1]; [done|].
  by destruct (process_return_to_main_menu E update _) as [[result|e2] w2].
Qed.

Lemma text_routing_validator (t : string) (router : FSMRouter)
    (client_state : option StateInformation) :
  text_routing E !! t = Some router -> validator router client_state = true.
Proof.
  unfold text_routing.
  rewrite !lookup_insert_Some, lookup_singleton_Some.
  by intros [[_ <-]|[_ [[_ <-]|[_ [[_ <-]|[_ [_ <-]]]]]]].
Qed.

Lemma state_routing_validator (k : string) (router : FSMRouter)
    (client_state : option StateInformation) :
  state_routing E !! k = Some router -> validator router client_state = true.
Proof.
  unfold state_routing.
  rewrite lookup_insert_Some, lookup_singleton_Some.
  by intros [[_ <-]|[_ [_ <-]]].
Qed.

(** C2.  For a text-message update whose sender's state could be read.
    When the text is a literal trigger or the sender has a state record,
    the routing returns exactly the handler the spec's trigger priority
    names, and [process_update] runs that handler: its result is the
    result, and when it raises, the default handler
    [process_return_to_main_menu] is run and its result is the result (the
    empty list when it raises too).  When the text is no trigger and the
    sender has no state record, the routing itself raises on reading the
    state, and [process_update] runs the default handler
    [process_return_to_main_menu] on the update: its result is the result
    (the empty list when it raises).  A literal trigger selects its own
    handler whatever the sender's state is; without a trigger, a state with
    an entry in the state-routing table selects that entry's handler. *)
Theorem process_update_trigger_priority (update : Update) (m : Message)
    (t : string) (w w1 : World) (client_state : option StateInformation) :
  message update = Some m -> text m = Some t -> t <> "" ->
  get_client_state_information E (sender m)
    (add_log (INFO, "Processing update: %s of type %s.") w)
  = (Return client_state, w1) ->
  (text_routing E !! t <> None \/ client_state <> None ->
   process_message_update E update
     (add_log (INFO, "Processing update: %s of type %s.") w)
   = (Return (resolve_handler_spec E t client_state), w1) /\
   process_update E update w
   = match resolve_handler_spec E t client_state update w1 with
     | (Return result, w2) =>
       (Return result, add_log (INFO, "Processing result: %s.") w2)
     | (Raise _, w2) =>
       match process_return_to_main_menu E update
               (add_log (ERROR, "Unexpected error when processing update: %s") w2)
       with
       | (Return result, w3) =>
         (Return result, add_log (INFO, "Processing result: %s.") w3)
       | (Raise _, w3) =>
         (Return [],
          add_log (INFO, "Processing result: %s.")
            (add_log (ERROR, "While handling previous exception, another was raised: %s")
               w3))
       end
     end) /\
  (text_routing E !! t = None -> client_state = None ->
   resolve_handler_spec E t client_state = process_return_to_main_menu E /\
   process_message_update E update
     (add_log (INFO, "Processing update: %s of type %s.") w)
   = (Raise AttributeError, w1) /\
   process_update E update w
   = match process_return_to_main_menu E update
             (add_log (ERROR, "Unexpected error when processing update: %s") w1)
     with
     | (Return result, w3) =>
       (Return result, add_log (INFO, "Processing result: %s.") w3)
     | (Raise _, w3) =>
       (Return [],
        add_log (INFO, "Processing result: %s.")
          (add_log (ERROR, "While handling previous exception, another was raised: %s")
             w3))
     end) /\
  (forall router,
     text_routing E !! t = Some router ->
     resolve_handler_spec E t client_state = handler router) /\
  (forall state_information s router,
     text_routing E !! t = None ->
     client_state = Some state_information ->
     state state_information = Some s ->
     state_routing E !! States_value s = Some router ->
     resolve_handler_spec E t client_state = handler router).
Proof.
  intros Hm Ht Hne Hst. split; [|split; [|split]].
  - intros Hsome.
    destruct (process_update_selected _ _ _ _ _ _ Hm Ht Hne Hst Hsome)
      as [Hsel Hrun].
    split; [exact Hsel|]. rewrite Hrun. apply run_selected_cases.
  - intros Hnone ->.
    destruct (process_update_unrouted _ _ _ _ _ Hm Ht Hne Hst Hnone)
      as [Hdefault Hrun].
    split; [exact Hdefault|]. split.
    + rewrite (process_message_update_resolved _ _ _ _ _ _ Hm Ht Hst).
      by rewrite Hnone.
    + rewrite Hrun. apply run_recovery_cases.
  - intros router Hrouter. unfold resolve_handler_spec. rewrite Hrouter.
    by rewrite (text_routing_validator _ _ _ Hrouter).
  - intros si s router Hnone -> Hs Hrouter.
    unfold resolve_handler_spec. rewrite Hnone. cbn [mbind option_bind].
    rewrite Hs, Hrouter.
    by rewrite (state_routing_validator _ _ _ Hrouter).
Qed.

(** *** C9: which sent messages are returned *)

Ltac trace_prefix :=
  first [ reflexivity | apply prefix_app_r; trace_prefix ].

Lemma lift_returned {A} (o : outcome A) (w w1 : World) (a : A) :
  lift o w = (Return a, w1) -> o = Return a /\ w1 = w.
Proof. unfold lift. destruct o; intros [= <- <-]; done. Qed.

Lemma send_message_answers (cid : Z) (t : string) (pm : option string)
    (rm : option ReplyMarkup) (w w1 : World) (r : TelegramAPISendMessageResponse) :
  TelegramClient.send_message E cid t pm rm w = (Return r, w1) ->
  r = telegram_api E (calls w) (mkSendMessage cid t pm rm) /\
  delivered w1 = (delivered w ++ [mkSendMessage cid t pm rm])%list /\
  calls w1 = (calls w ++ [TelegramSendMessage (mkSendMessage cid t pm rm)])%list.
Proof.
  intros H. apply send_message_outcome in H as [[Ho ->]|[Ho _]];
    [|discriminate Ho].
  injection Ho as ->. by world_projections.
Qed.

Lemma hmset_returned (key : Z) (value : gmap string string) (w w1 : World)
    (u : unit) :
  RedisClient.hmset E key value w = (Return u, w1) ->
  delivered w1 = delivered w /\
  calls w1 = (calls w ++ [RedisHSet key value])%list.
Proof.
  intros H. apply hmset_outcome in H as [[_ ->]|[Ho _]]; [|discriminate Ho].
  by world_projections.
Qed.

(** The shape shared by the three state writers: the one message sent is
    the one answered. *)
Lemma single_reply_answers (t : string) (s : States) (markup : ReplyMarkup)
    (update : Update) (w w' : World)
    (result : list TelegramAPISendMessageResponse) :
  (let! client_id := lift (client_id_of update) in
   do! RedisClient.hmset E client_id (to_dict (mkStateInformation (Some s))) in
   let! r := TelegramClient.send_message E client_id t None (Some markup) in
   ret [r]) w = (Return result, w') ->
  exists msg r h,
    result = [r] /\
    r = telegram_api E h msg /\
    delivered w' = (delivered w ++ [msg])%list /\
    calls w' = (h ++ [TelegramSendMessage msg])%list /\
    calls w `prefix_of` h.
Proof.
  intros H. minv H. minv H. minv H. injection H as <- <-.
  apply lift_returned in Hstep as [_ ->].
  apply hmset_returned in Hstep0 as [Hd0 Hc0].
  apply send_message_answers in Hstep1 as (Hr & Hd1 & Hc1).
  eexists _, _, _. split; [reflexivity|]. split; [exact Hr|].
  split; [by rewrite Hd1, Hd0|]. split; [exact Hc1|].
  rewrite Hc0. trace_prefix.
Qed.

Lemma single_reply_accounted (t : string) (s : States) (markup : ReplyMarkup)
    (update : Update) (w w' : World)
    (result : list TelegramAPISendMessageResponse) :
  (let! client_id := lift (client_id_of update) in
   do! RedisClient.hmset E client_id (to_dict (mkStateInformation (Some s))) in
   let! r := TelegramClient.send_message E client_id t None (Some markup) in
   ret [r]) w = (Return result, w') ->
  exists waits answered,
    delivered w' = (delivered w ++ waits ++ answered)%list /\
    length waits = 0%nat /\
    Forall is_interim waits /\
    Forall2 (answers E w') result answered /\
    (length result <= 2)%nat.
Proof.
  intros H.
  apply single_reply_answers in H as (msg & r & h & -> & Hr & Hd & Hc & _).
  exists [], [msg]. split; [exact Hd|]. split; [done|]. split; [done|].
  split; [|cbn; lia].
  constructor; [|constructor]. exists h. split; [exact Hr|]. by rewrite Hc.
Qed.

(** C9, amended.  Whatever the collaborators do, a handler that returns
    has sent exactly these messages, in this order: first its interim
    "please wait" message, if it has one ([question] and [recommendation]
    have one, the other four handlers none), whose send result is not
    returned; then the messages its results answer, one result per
    message and in the same order, each result being the Bot API's answer
    to a send call of this run.  It returns at most 2 results. *)
Theorem handler_results_account_for_sends (h : UpdateHandler) (interim : nat)
    (update : Update) (w w' : World)
    (result : list TelegramAPISendMessageResponse) :
  In (h, interim) (handlers E) ->
  h update w = (Return result, w') ->
  exists waits answered,
    delivered w' = (delivered w ++ waits ++ answered)%list /\
    length waits = interim /\
    Forall is_interim waits /\
    Forall2 (answers E w') result answered /\
    (length result <= 2)%nat.
Proof.
  intros Hin H.
  destruct Hin as [[= <- <-]|[[= <- <-]|[[= <- <-]|[[= <- <-]|[[= <- <-]|[[= <- <-]|[]]]]]]].
  - (* start *)
    unfold process_start_command in H.
    minv H. minv H. minv H. minv H. minv H. minv H. injection H as <- <-.
    outbox_step Hstep. outbox_step Hstep0. outbox_step Hstep1.
    outbox_step Hstep2.
    apply send_message_answers in Hstep3 as (Hr & Hd & Hc).
    apply single_reply_answers in Hstep4
      as (msg & r & hist & -> & Hr' & Hd' & Hc' & Hpre).
    eexists [], [_; msg]. split.
    { rewrite Hd', Hd, Hstep2, Hstep1, Hstep0, Hstep.
      by rewrite <- app_assoc. }
    split; [done|]. split; [done|]. split; [|cbn; lia].
    constructor; [|constructor; [|constructor]].
    + eexists. split; [exact Hr|]. rewrite <- Hc, Hc'.
      by apply prefix_app_r.
    + exists hist. split; [exact Hr'|]. by rewrite Hc'.
  - by eapply single_reply_accounted.
  - by eapply single_reply_accounted.
  - (* question *)
    unfold process_question in H.
    minv H. minv H. minv H. minv H. minv H. minv H. minv H.
    injection H as <- <-.
    outbox_step Hstep. outbox_step Hstep0. outbox_step Hstep1.
    apply send_message_answers in Hstep2 as (_ & Hd2 & _).
    outbox_step Hstep3. outbox_step Hstep4.
    apply send_message_answers in Hstep5 as (Hr & Hd & Hc).
    eexists [_], [_]. split.
    { rewrite Hd, Hstep4, Hstep3, Hd2, Hstep1, Hstep0, Hstep.
      by rewrite <- app_assoc. }
    split; [done|]. split; [constructor; [by left|constructor]|].
    split; [|cbn; lia].
    constructor; [|constructor].
    eexists. split; [exact Hr|]. by rewrite Hc.
  - by eapply single_reply_accounted.
  - (* recommendation *)
    unfold process_recommendation in H.
    minv H. minv H. minv H. minv H. minv H. minv H. minv H. minv H. minv H.
    injection H as <- <-.
    outbox_step Hstep. outbox_step Hstep0. outbox_step Hstep1.
    outbox_step Hstep2. outbox_step Hstep3. outbox_step Hstep4.
    apply send_message_answers in Hstep5 as (_ & Hd5 & _).
    apply send_message_answers in Hstep6 as (Hr1 & Hd1 & Hc1).
    apply send_message_answers in Hstep7 as (Hr2 & Hd2 & Hc2).
    eexists [_], [_; _]. split.
    { rewrite Hd2, Hd1, Hd5, Hstep4, Hstep3, Hstep2, Hstep1, Hstep0, Hstep.
      by rewrite <- !app_assoc. }
    split; [done|]. split; [constructor; [by right|constructor]|].
    split; [|cbn; lia].
    constructor; [|constructor; [|constructor]].
    + eexists. split; [exact Hr1|]. rewrite Hc2, <- Hc1.
      by apply prefix_app_r.
    + eexists. split; [exact Hr2|]. by rewrite Hc2.
Qed.

(** *** C5: free text and trigger text in state RECOMMENDATION *)

Lemma return_to_main_menu_keeps_notes (update : Update) (m : Message)
    (w : World) :
  healthy E ->
  message update = Some m ->
  exists result w',
    process_return_to_main_menu E update w = (Return result, w') /\
    user_specifics w' = user_specifics w.
Proof.
  intros Hhealthy Hm. unfold process_return_to_main_menu.
  rewrite (client_id_of_message _ _ Hm). mlift.
  mstep redis_hmset_healthy. mstep send_message_healthy.
  eexists _, _. split; [reflexivity|]. by world_projections.
Qed.

(** With every collaborator answering, the handler of a literal trigger
    returns and leaves the notes as they are. *)
Lemma text_routed_handler_keeps_notes (t : string) (router : FSMRouter)
    (update : Update) (m : Message) (w : World) :
  healthy E ->
  text_routing E !! t = Some router ->
  message update = Some m ->
  exists result w',
    handler router update w = (Return result, w') /\
    user_specifics w' = user_specifics w.
Proof.
  intros Hhealthy Hrouter Hm. unfold text_routing in Hrouter.
  rewrite !lookup_insert_Some, lookup_singleton_Some in Hrouter.
  destruct Hrouter as [[_ <-]|[_ [[_ <-]|[_ [[_ <-]|[_ [_ <-]]]]]]];
    cbn [handler].
  - unfold process_start_command.
    rewrite (client_id_of_message _ _ Hm). mlift.
    mstep redis_delete_healthy. mstep redis_hmset_healthy.
    mstep get_programs_healthy. mstep send_message_healthy.
    match goal with
    | |- context [bind (process_return_to_main_menu E update) _ ?w0] =>
      destruct (return_to_main_menu_keeps_notes update m w0 Hhealthy Hm)
        as (rest & w' & Hrun & Hnotes)
    end.
    erewrite bind_Return by exact Hrun.
    eexists _, _. split; [reflexivity|]. rewrite Hnotes. by world_projections.
  - unfold process_question_about_program.
    rewrite (client_id_of_message _ _ Hm). mlift.
    mstep redis_hmset_healthy. mstep send_message_healthy.
    eexists _, _. split; [reflexivity|]. by world_projections.
  - unfold process_get_recommendation.
    rewrite (client_id_of_message _ _ Hm). mlift.
    mstep redis_hmset_healthy. mstep send_message_healthy.
    eexists _, _. split; [reflexivity|]. by world_projections.
  - by apply (return_to_main_menu_keeps_notes update m w).
Qed.

(** C5, amended.  With every collaborator answering, for a user with a
    positive identifier in state RECOMMENDATION who sends a non-empty text.
    When the text is no literal trigger, the user gets exactly one new note
    holding that text and exactly two send results: the Bot API's answers
    to the recommendation text and to the message naming the recommended
    program, in this order; the session store is unchanged, so the stored
    state is still RECOMMENDATION.  When the text is a literal trigger, the
    routing returns that trigger's handler, the result of [process_update]
    is that handler's result, and no note is created. *)
Theorem process_update_in_recommendation (update : Update) (m : Message)
    (t : string) (w : World) :
  healthy E ->
  message update = Some m -> text m = Some t -> t <> "" ->
  0 < sender m ->
  stored_state_is E w (sender m) RECOMMENDATION ->
  (text_routing E !! t = None ->
   let notes :=
     order_by_specific E
       (filter (fun r => us_user_id r = sender m)
               (user_specifics w ++ [mkUserSpecific (sender m) t])%list) in
   let programs := order_by_name E (supported_programms w) in
   let response :=
     openai_recommend E (map website_url programs) (map specific notes)
                      (map name programs) in
   exists h1 h2 w',
     process_update E update w
     = (Return [telegram_api E h1
                  (mkSendMessage (sender m) (recommendation response)
                                 (Some "Markdown") None);
                telegram_api E h2
                  (mkSendMessage (sender m)
                     ("Рекомендованная программа: "
                      +:+ recommended_program response)
                     (Some "Markdown") None)], w') /\
     user_specifics w' = (user_specifics w ++ [mkUserSpecific (sender m) t])%list /\
     redis w' = redis w /\
     stored_state_is E w' (sender m) RECOMMENDATION) /\
  (forall router,
     text_routing E !! t = Some router ->
     process_message_update E update
       (add_log (INFO, "Processing update: %s of type %s.") w)
     = (Return (handler router),
        add_call (RedisHGetAll (sender m))
          (add_log (INFO, "Processing update: %s of type %s.") w)) /\
     exists result w',
       handler router update
         (add_call (RedisHGetAll (sender m))
            (add_log (INFO, "Processing update: %s of type %s.") w))
       = (Return result, w') /\
       process_update E update w
       = (Return result, add_log (INFO, "Processing result: %s.") w') /\
       user_specifics w' = user_specifics w).
Proof.
  intros Hhealthy Hm Ht Hne Hpos Hstored. split.
  - intros Htext notes programs response.
    rewrite (process_update_state_route _ _ _ _ _ Hhealthy Hm Ht Hne Htext Hstored).
    unfold resolve_handler_spec. rewrite Htext.
    cbn [mbind option_bind state]. rewrite state_routing_recommendation.
    cbn [validator handler].
    destruct (process_recommendation_healthy Hhealthy update m t
                (add_call (RedisHGetAll (sender m))
                   (add_log (INFO, "Processing update: %s of type %s.") w))
                Hm Ht Hpos) as (w' & Hrun & _ & _ & Hredis & Hnotes).
    unfold run_selected, bind, try_except, logger, ret. rewrite Hrun.
    eexists _, _, _. split; [reflexivity|].
    world_projections. rewrite Hnotes, Hredis. world_projections.
    split; [done|]. split; [done|].
    eapply stored_state_is_redis; [|exact Hstored].
    world_projections. by rewrite Hredis.
  - intros router Hrouter.
    assert (Hstate :
      get_client_state_information E (sender m)
        (add_log (INFO, "Processing update: %s of type %s.") w)
      = (Return (Some (mkStateInformation (Some RECOMMENDATION))),
         add_call (RedisHGetAll (sender m))
           (add_log (INFO, "Processing update: %s of type %s.") w)))
      by (by apply get_client_state_information_stored).
    destruct (process_update_selected _ _ _ _ _ _ Hm Ht Hne Hstate)
      as [Hsel Hrun]; [left; by rewrite Hrouter|].
    assert (Hresolved :
      resolve_handler_spec E t (Some (mkStateInformation (Some RECOMMENDATION)))
      = handler router).
    { unfold resolve_handler_spec. rewrite Hrouter.
      by rewrite (text_routing_validator _ _ _ Hrouter). }
    rewrite Hresolved in Hsel, Hrun. split; [exact Hsel|].
    destruct (text_routed_handler_keeps_notes t router update m
                (add_call (RedisHGetAll (sender m))
                   (add_log (INFO, "Processing update: %s of type %s.") w))
                Hhealthy Hrouter Hm) as (result & w' & Hh & Hnotes).
    exists result, w'. split; [exact Hh|]. split.
    + rewrite Hrun. by apply run_selected_returned.
    + rewrite Hnotes. by world_projections.
Qed.
End Properties.

(** ** Instances on concrete inputs *)

Lemma healthy_quiet : healthy quiet.
Proof. intros h c. reflexivity. Qed.

Lemma stored_state_is_store_in (s : States) :
  stored_state_is quiet (world_with (store_in s)) 42 s.
Proof.
  exists {[ "state" := States_value s ]}, {[ "state" := States_value s ]}.
  destruct s; repeat split; vm_compute; reflexivity.
Qed.

(** *** The decoder on well-formed and ill-formed byte strings *)

Example utf8_valid_cases :
  utf8_valid "Вернуться в главное меню ❗️" = true /\
  (* an overlong encoding, C0 80 *)
  utf8_valid (String (ascii_of_nat 192) (String (ascii_of_nat 128) "")) = false /\
  (* a surrogate, ED A0 80 *)
  utf8_valid (String (ascii_of_nat 237) (String (ascii_of_nat 160)
             (String (ascii_of_nat 128) ""))) = false /\
  (* beyond U+10FFFF, F4 90 80 80 *)
  utf8_valid (String (ascii_of_nat 244) (String (ascii_of_nat 144)
             (String (ascii_of_nat 128) (String (ascii_of_nat 128) "")))) = false /\
  (* a truncated sequence *)
  utf8_valid (String (ascii_of_nat 208) "") = false.
Proof. repeat split; vm_compute; reflexivity. Qed.

(** *** The failure paths at work *)

(** The completion API fails while user 42 asks a question: the interim
    message was sent, the handler raises, the default handler answers with
    the main menu and the state becomes MAIN_MENU. *)
Example answering_failure_falls_back_to_main_menu :
  (exists r,
     (process_update openai_down (text_update 42 "Какие экзамены?")
        (world_with (store_in QUESTIONS))).1 = Return [r]) /\
  delivered
    (process_update openai_down (text_update 42 "Какие экзамены?")
       (world_with (store_in QUESTIONS))).2
  = [wait_for_answer 42; main_menu_message 42] /\
  redis
    (process_update openai_down (text_update 42 "Какие экзамены?")
       (world_with (store_in QUESTIONS))).2
  = store_in MAIN_MENU.
Proof. split; [eexists|split]; vm_compute; reflexivity. Qed.

(** With every collaborator down the user gets no reply and the result is
    the empty list. *)
Example outage_gives_empty_result :
  (process_update outage (text_update 42 "/start") (world_with ∅)).1
  = Return [] /\
  delivered
    (process_update outage (text_update 42 "/start") (world_with ∅)).2 = [].
Proof. split; vm_compute; reflexivity. Qed.

(** A record that is not valid UTF-8 is not a validation failure: the
    resolver lets the decoding error through, and [process_update] recovers
    from it with the default handler. *)
Example undecodable_record_raises :
  (get_client_state_information quiet 42 (world_with store_undecodable)).1
  = Raise UnicodeDecodeError /\
  delivered
    (process_update quiet (text_update 42 "Какие экзамены?")
       (world_with store_undecodable)).2
  = [main_menu_message 42].
Proof. split; vm_compute; reflexivity. Qed.

(** The table lookups of [resolve_handler_spec] on the four kinds of
    input. *)
Example resolve_handler_spec_cases :
  resolve_handler_spec quiet "/start" None = process_start_command quiet /\
  resolve_handler_spec quiet "Какие экзамены?"
    (Some (mkStateInformation (Some QUESTIONS))) = process_question quiet /\
  resolve_handler_spec quiet "Какие экзамены?"
    (Some (mkStateInformation (Some MAIN_MENU)))
  = process_return_to_main_menu quiet /\
  resolve_handler_spec quiet "Какие экзамены?" None
  = process_return_to_main_menu quiet.
Proof. repeat split; reflexivity. Qed.

(** *** Witnesses and counterexamples of the claims *)

(** C10 at work: a stored record whose state names no member of [States]
    is logged and read as "no state"; a stored record whose value is not
    valid UTF-8 makes the resolver raise. *)
Lemma get_client_state_information_by_record_witness :
  get_client_state_information quiet 7
    (world_with {[ 7 := {[ "state" := "dancing" ]} ]})
  = (Return None,
     add_log (ERROR, "Unexpected error when parsing redis hashmap: %s")
       (add_call (RedisHGetAll 7)
          (world_with {[ 7 := {[ "state" := "dancing" ]} ]}))) /\
  get_client_state_information quiet 42 (world_with store_undecodable)
  = (Raise UnicodeDecodeError,
     add_call (RedisHGetAll 42) (world_with store_undecodable)).
Proof.
  split.
  - eapply (proj1 (proj2 (get_client_state_information_by_record quiet 7
                    (world_with {[ 7 := {[ "state" := "dancing" ]} ]}) eq_refl))).
    + vm_compute. reflexivity.
    + vm_compute. reflexivity.
  - eapply (proj2 (proj2 (get_client_state_information_by_record quiet 42
                    (world_with store_undecodable) eq_refl))).
    vm_compute. reflexivity.
Defined.

Lemma text_routing_question : text_routing quiet !! "Какие экзамены?" = None.
Proof. vm_compute. reflexivity. Qed.

(** C2 at work.  User 42 is in state QUESTIONS, which has an entry in the
    state-routing table, and sends the text of a literal trigger: the
    routing returns the trigger's handler, not the handler of the state.
    The same user without a record sends a text that is no trigger: the
    routing raises and the result of [process_update] is the default
    handler's, the Bot API's answer to the main menu. *)
Lemma process_update_trigger_priority_witness :
  process_message_update quiet (text_update 42 "Вернуться в главное меню")
    (add_log (INFO, "Processing update: %s of type %s.")
       (world_with (store_in QUESTIONS)))
  = (Return (process_return_to_main_menu quiet),
     add_call (RedisHGetAll 42)
       (add_log (INFO, "Processing update: %s of type %s.")
          (world_with (store_in QUESTIONS)))) /\
  process_message_update quiet (text_update 42 "Какие экзамены?")
    (add_log (INFO, "Processing update: %s of type %s.") (world_with ∅))
  = (Raise AttributeError,
     add_call (RedisHGetAll 42)
       (add_log (INFO, "Processing update: %s of type %s.") (world_with ∅))) /\
  (process_update quiet (text_update 42 "Какие экзамены?") (world_with ∅)).1
  = Return [telegram_api quiet [RedisHGetAll 42; RedisHSet 42 main_menu_record]
              (main_menu_message 42)].
Proof.
  split.
  - refine (proj1 (proj1
      (process_update_trigger_priority quiet
         (text_update 42 "Вернуться в главное меню")
         (mkMessage 10 (Some (mkUser 42)) (mkChat 42)
                    (Some "Вернуться в главное меню"))
         "Вернуться в главное меню"
         (world_with (store_in QUESTIONS)) _
         (Some (mkStateInformation (Some QUESTIONS)))
         eq_refl eq_refl _ _) (or_intror _))).
    + discriminate.
    + vm_compute. reflexivity.
    + discriminate.
  - assert (Hstate :
      get_client_state_information quiet 42
        (add_log (INFO, "Processing update: %s of type %s.") (world_with ∅))
      = (Return None,
         add_call (RedisHGetAll 42)
           (add_log (INFO, "Processing update: %s of type %s.") (world_with ∅))))
      by (vm_compute; reflexivity).
    destruct (proj1 (proj2
      (process_update_trigger_priority quiet
         (text_update 42 "Какие экзамены?")
         (mkMessage 10 (Some (mkUser 42)) (mkChat 42) (Some "Какие экзамены?"))
         "Какие экзамены?" (world_with ∅) _ None
         eq_refl eq_refl ltac:(discriminate) Hstate))
      text_routing_question eq_refl) as (_ & Hrouting & Hrun).
    split; [exact Hrouting|].
    rewrite Hrun. clear Hrun Hrouting Hstate. vm_compute. reflexivity.
Defined.

(** C3, counterexample.  An update with no message field, every
    collaborator answering: the default handler raises on reading the
    sender, the result is the empty list and no message is sent, so the
    result is not the main-menu reply. *)
Lemma bare_update_gets_no_reply :
  has_text bare_update = false /\
  (process_return_to_main_menu quiet bare_update
     (add_log (ERROR, "Unexpected error when processing update: %s")
        (world_with ∅))).1
  = Raise AttributeError /\
  (process_update quiet bare_update (world_with ∅)).1 = Return [] /\
  delivered (process_update quiet bare_update (world_with ∅)).2 = [] /\
  calls (process_update quiet bare_update (world_with ∅)).2 = [].
Proof. repeat split; vm_compute; reflexivity. Qed.

(** A photo sent by user 42 is answered with the main menu. *)
Lemma process_update_without_text_witness :
  exists h w',
    process_update quiet (photo_update 42) (world_with ∅)
    = (Return [telegram_api quiet h (main_menu_message 42)], w') /\
    delivered w' = [main_menu_message 42].
Proof.
  exact (proj1 (proj2 (proj2
    (process_update_without_text quiet (photo_update 42) (world_with ∅) eq_refl)))
    (mkMessage 10 (Some (mkUser 42)) (mkChat 42) None) eq_refl healthy_quiet).
Defined.

Lemma process_update_in_questions_witness :
  exists r w',
    process_update quiet (text_update 42 "Какие экзамены?")
      (world_with (store_in QUESTIONS))
    = (Return [r], w') /\
    redis w' = store_in QUESTIONS.
Proof.
  destruct (process_update_in_questions quiet
              (text_update 42 "Какие экзамены?")
              (mkMessage 10 (Some (mkUser 42)) (mkChat 42) (Some "Какие экзамены?"))
              "Какие экзамены?" (world_with (store_in QUESTIONS))
              healthy_quiet eq_refl eq_refl ltac:(discriminate)
              text_routing_question (stored_state_is_store_in QUESTIONS))
    as (h & w' & new & Hrun & _ & _ & Hredis & _).
  eauto.
Defined.

(** C5, counterexample.  User 42 is in state RECOMMENDATION and presses
    the button shown in that state, which sends the text of a literal
    trigger: the trigger wins, no note is created, the one result is the
    main menu, and the stored state becomes MAIN_MENU. *)
Lemma return_button_in_recommendation_creates_no_note :
  stored_state_is quiet (world_with (store_in RECOMMENDATION)) 42 RECOMMENDATION /\
  user_specifics
    (process_update quiet (text_update 42 "Вернуться в главное меню")
       (world_with (store_in RECOMMENDATION))).2 = [] /\
  delivered
    (process_update quiet (text_update 42 "Вернуться в главное меню")
       (world_with (store_in RECOMMENDATION))).2
  = [main_menu_message 42] /\
  redis
    (process_update quiet (text_update 42 "Вернуться в главное меню")
       (world_with (store_in RECOMMENDATION))).2
  = store_in MAIN_MENU.
Proof.
  split; [apply stored_state_is_store_in|].
  repeat split; vm_compute; reflexivity.
Qed.

Lemma text_routing_about_me :
  text_routing quiet !! "Люблю машинное обучение" = None.
Proof. vm_compute. reflexivity. Qed.

(** C5 at work.  User 42 is in state RECOMMENDATION: a free text becomes
    a note and gets two replies; the text of the return button, a literal
    trigger, gets the result of the trigger's handler and creates no
    note. *)
Lemma process_update_in_recommendation_witness :
  (exists r1 r2 w',
     process_update quiet (text_update 42 "Люблю машинное обучение")
       (world_with (store_in RECOMMENDATION))
     = (Return [r1; r2], w') /\
     user_specifics w' = [mkUserSpecific 42 "Люблю машинное обучение"]) /\
  (exists result w',
     process_return_to_main_menu quiet
       (text_update 42 "Вернуться в главное меню")
       (add_call (RedisHGetAll 42)
          (add_log (INFO, "Processing update: %s of type %s.")
             (world_with (store_in RECOMMENDATION))))
     = (Return result, w') /\
     process_update quiet (text_update 42 "Вернуться в главное меню")
       (world_with (store_in RECOMMENDATION))
     = (Return result, add_log (INFO, "Processing result: %s.") w') /\
     user_specifics w' = []).
Proof.
  split.
  - destruct (proj1 (process_update_in_recommendation quiet
                (text_update 42 "Люблю машинное обучение")
                (mkMessage 10 (Some (mkUser 42)) (mkChat 42)
                           (Some "Люблю машинное обучение"))
                "Люблю машинное обучение" (world_with (store_in RECOMMENDATION))
                healthy_quiet eq_refl eq_refl ltac:(discriminate)
                ltac:(reflexivity)
                (stored_state_is_store_in RECOMMENDATION))
              text_routing_about_me)
      as (h1 & h2 & w' & Hrun & Hnotes & _).
    eauto.
  - destruct (proj2 (process_update_in_recommendation quiet
                (text_update 42 "Вернуться в главное меню")
                (mkMessage 10 (Some (mkUser 42)) (mkChat 42)
                           (Some "Вернуться в главное меню"))
                "Вернуться в главное меню" (world_with (store_in RECOMMENDATION))
                healthy_quiet eq_refl eq_refl ltac:(discriminate)
                ltac:(reflexivity)
                (stored_state_is_store_in RECOMMENDATION))
              _ (text_routing_return quiet))
      as (_ & result & w' & Hhandler & Hrun & Hnotes).
    exists result, w'.
    split; [exact Hhandler|]. split; [exact Hrun|exact Hnotes].
Defined.

(** C6.  The external calls of one run of the recommendation handler, in
    order: the completion request is made before the interim "please wait"
    message is sent. *)
Theorem recommendation_asks_before_wait :
  calls
    (process_update quiet (text_update 42 "Люблю машинное обучение")
       (world_with (store_in RECOMMENDATION))).2
  = [RedisHGetAll 42;
     InsertUserSpecific 42 "Люблю машинное обучение";
     ReadListedUserSpecifics 42;
     ReadAllProgramms;
     ProvideRecommendation ["https://abit.itmo.ru/program/master/ai"]
                           ["Люблю машинное обучение"] ["AI"];
     TelegramSendMessage (wait_for_recommendation 42);
     TelegramSendMessage (mkSendMessage 42 "Я не знаю" (Some "Markdown") None);
     TelegramSendMessage
       (mkSendMessage 42 "Рекомендованная программа: AI" (Some "Markdown") None)].
Proof. vm_compute. reflexivity. Qed.

(** C7, counterexample.  User 42 sends [/start]: the first store mutation
    is the deletion of the session record, and the write of the MAIN_MENU
    record comes after it. *)
Lemma start_deletes_before_writing :
  calls
    (process_update quiet (text_update 42 "/start")
       (world_with (store_in QUESTIONS))).2
  = [RedisHGetAll 42;
     RedisDelete 42;
     RedisHSet 42 main_menu_record;
     ReadAllProgramms;
     TelegramSendMessage (greeting 42 catalog);
     RedisHSet 42 main_menu_record;
     TelegramSendMessage (main_menu_message 42)].
Proof. vm_compute. reflexivity. Qed.

Lemma process_start_command_deletes_first_witness :
  exists r1 r2 w',
    process_start_command quiet (text_update 42 "/start")
      (world_with store_with_draft)
    = (Return [r1; r2], w') /\
    redis w' = store_in MAIN_MENU.
Proof.
  destruct (process_start_command_deletes_first quiet
              (text_update 42 "/start")
              (mkMessage 10 (Some (mkUser 42)) (mkChat 42) (Some "/start"))
              (world_with store_with_draft) healthy_quiet eq_refl)
    as (r1 & r2 & w' & Hrun & _ & Hredis).
  exists r1, r2, w'. split; [exact Hrun|].
  rewrite Hredis. vm_compute. reflexivity.
Defined.

(** C8, counterexample.  The record of user 42 holds a second field; after
    the return to the main menu the field [state] is rewritten and the
    other field of the previous record is still there. *)
Lemma return_to_main_menu_keeps_other_fields :
  redis
    (process_update quiet (text_update 42 "Вернуться в главное меню")
       (world_with store_with_draft)).2
  = {[ 42 := {[ "state" := "main_menu"; "draft" := "x" ]} ]}.
Proof. vm_compute. reflexivity. Qed.

Lemma state_write_merges_witness :
  exists result w' record,
    process_return_to_main_menu quiet
      (text_update 42 "Вернуться в главное меню") (world_with store_with_draft)
    = (Return result, w') /\
    redis w' !! 42 = Some record /\
    record !! "state" = Some "main_menu" /\
    record !! "draft" = Some "x".
Proof.
  destruct (state_write_merges quiet (process_return_to_main_menu quiet)
              MAIN_MENU (text_update 42 "Вернуться в главное меню")
              (mkMessage 10 (Some (mkUser 42)) (mkChat 42)
                         (Some "Вернуться в главное меню"))
              (world_with store_with_draft) healthy_quiet
              (or_introl eq_refl) eq_refl)
    as (result & w' & record & Hrun & _ & Hrecord & Hstate & Hother & _).
  exists result, w', record.
  split; [exact Hrun|]. split; [exact Hrecord|]. split; [exact Hstate|].
  rewrite (Hother "draft") by discriminate. vm_compute. reflexivity.
Defined.

(** C9, counterexample.  One run of the question handler sends two
    messages, the interim one and the answer, and returns one result. *)
Lemma question_sends_two_returns_one :
  (exists r,
     (process_question quiet (text_update 42 "Какие экзамены?")
        (world_with (store_in QUESTIONS))).1 = Return [r]) /\
  length
    (delivered
       (process_question quiet (text_update 42 "Какие экзамены?")
          (world_with (store_in QUESTIONS))).2) = 2%nat.
Proof. split; [eexists|]; vm_compute; reflexivity. Qed.

(** C9 at work.  One run of the question handler: the messages sent are
    one interim message, then the messages the results answer. *)
Lemma handler_results_account_for_sends_witness :
  exists result w' waits answered,
    process_question quiet (text_update 42 "Какие экзамены?")
      (world_with (store_in QUESTIONS))
    = (Return result, w') /\
    delivered w' = (waits ++ answered)%list /\
    length waits = 1%nat /\
    Forall is_interim waits /\
    Forall2 (answers quiet w') result answered /\
    (length result <= 2)%nat.
Proof.
  destruct (process_question quiet (text_update 42 "Какие экзамены?")
              (world_with (store_in QUESTIONS))) as [[result|e] w'] eqn:Hrun;
    [|vm_compute in Hrun; discriminate Hrun].
  destruct (handler_results_account_for_sends quiet (process_question quiet)
              1%nat (text_update 42 "Какие экзамены?")
              (world_with (store_in QUESTIONS)) w' result
              (or_intror (or_intror (or_intror (or_introl eq_refl)))) Hrun)
    as (waits & answered & Hsent & Hlen & Hwaits & Hanswered & Hle).
  exists result, w', waits, answered.
  split; [reflexivity|]. split; [exact Hsent|]. split; [exact Hlen|].
  split; [exact Hwaits|]. split; [exact Hanswered|exact Hle].
Defined.

(** *** Witnesses of the further properties *)

Lemma service_written_store_in (s : States) : service_written (store_in s).
Proof.
  intros k h. unfold store_in. rewrite lookup_singleton_Some.
  intros [_ <-]. eauto.
Qed.

(** Client 42 restarts; the record of client 7 is as before. *)
Lemma process_update_isolates_clients_witness :
  redis (process_update quiet (text_update 42 "/start") (world_with store_two)).2
    !! 7
  = redis (world_with store_two) !! 7.
Proof.
  apply (process_update_isolates_clients quiet (text_update 42 "/start")
           (world_with store_two) 7).
  discriminate.
Defined.

Lemma process_update_keeps_service_written_witness :
  exists s,
    redis (process_update quiet (text_update 42 ask_button)
             (world_with (store_in MAIN_MENU))).2 !! 42
    = Some {[ "state" := States_value s ]}.
Proof.
  assert (Hrecord :
    redis (process_update quiet (text_update 42 ask_button)
             (world_with (store_in MAIN_MENU))).2 !! 42
    = Some {[ "state" := "questions" ]}) by (vm_compute; reflexivity).
  destruct (process_update_keeps_service_written quiet
              (text_update 42 ask_button) (world_with (store_in MAIN_MENU))
              (service_written_store_in MAIN_MENU) 42 _ Hrecord) as [s Hs].
  exists s. by rewrite Hrecord, Hs.
Defined.

(** The Bot API is down when client 42 asks to pose a question: the
    handler raises, and the record already says QUESTIONS. *)
Lemma state_written_before_reply_witness :
  exists record,
    redis (process_question_about_program telegram_down
             (text_update 42 ask_button) (world_with ∅)).2 !! 42
    = Some record /\
    record !! "state" = Some "questions".
Proof.
  apply (state_written_before_reply telegram_down
           (process_question_about_program telegram_down) QUESTIONS
           (text_update 42 ask_button)
           (mkMessage 10 (Some (mkUser 42)) (mkChat 42) (Some ask_button))
           (world_with ∅) _
           (mkSendMessage 42
              "Задай свой вопрос о программе, и я постараюсь на него ответить!"
              None (Some return_keyboard))).
  - right. left. reflexivity.
  - reflexivity.
  - vm_compute. reflexivity.
Defined.

(** The completion API is down while client 42 asks a question. *)
Lemma recovered_reply_means_main_menu_witness :
  exists result w2 record,
    process_update openai_down (text_update 42 "Какие экзамены?")
      (world_with (store_in QUESTIONS))
    = (Return result, w2) /\
    length result = 1%nat /\
    redis w2 !! 42 = Some record /\
    record !! "state" = Some "main_menu".
Proof.
  destruct (process_update openai_down (text_update 42 "Какие экзамены?")
              (world_with (store_in QUESTIONS)))
    as [[result|e] w2] eqn:Hrun; [|vm_compute in Hrun; discriminate Hrun].
  destruct (process_update_attempt openai_down
              (text_update 42 "Какие экзамены?")
              (world_with (store_in QUESTIONS)))
    as [[r0|e] w1] eqn:Hattempt;
    [vm_compute in Hattempt; discriminate Hattempt|].
  destruct (recovered_reply_means_main_menu openai_down
              (text_update 42 "Какие экзамены?")
              (world_with (store_in QUESTIONS)) w1 w2 e result Hattempt Hrun)
    as (m & h & record & Hm & -> & Hrecord & Hstate).
  { intros ->.
    apply (f_equal (fun p => match p.1 with
                             | Return l => length l
                             | Raise _ => 0%nat
                             end)) in Hrun.
    vm_compute in Hrun. discriminate Hrun. }
  injection Hm as <-.
  exists [telegram_api openai_down h
            (main_menu_message
               (sender (mkMessage 10 (Some (mkUser 42)) (mkChat 42)
                                  (Some "Какие экзамены?"))))], w2, record.
  clear Hattempt Hrun.
  split; [reflexivity|]. split; [reflexivity|].
  split; [exact Hrecord|exact Hstate].
Defined.

Lemma get_user_specifics_outcome_witness :
  (UserSpecificsService.get_user_specifics quiet 0 (world_with ∅)).1
  = Raise ValidationError /\
  calls (UserSpecificsService.get_user_specifics quiet 0 (world_with ∅)).2 = [].
Proof.
  apply (proj1 (get_user_specifics_outcome quiet 0 (world_with ∅))).
  reflexivity.
Defined.

Lemma process_update_transition_witness :
  exists result w',
    process_update quiet (text_update 42 "Какие экзамены?")
      (world_with (store_in QUESTIONS))
    = (Return result, w') /\
    redis w' = store_in QUESTIONS.
Proof.
  destruct (process_update_transition quiet
              (text_update 42 "Какие экзамены?")
              (mkMessage 10 (Some (mkUser 42)) (mkChat 42) (Some "Какие экзамены?"))
              "Какие экзамены?" (Some QUESTIONS)
              (world_with (store_in QUESTIONS))
              healthy_quiet eq_refl eq_refl ltac:(discriminate)
              ltac:(reflexivity) ltac:(vm_compute; reflexivity))
    as (result & w' & Hrun & _ & Hredis).
  exists result, w'. split; [exact Hrun|].
  rewrite Hredis. vm_compute. reflexivity.
Defined.

Lemma store_with_draft_decodes :
  decode_response (default ∅ (redis (world_with store_with_draft) !! 42))
  = Return ({[ "state" := "questions"; "draft" := "x" ]} : gmap string string).
Proof. vm_compute. reflexivity. Qed.

Lemma start_resets_and_greets_witness :
  exists h1 h2 w',
    process_update quiet (text_update 42 "/start") (world_with store_with_draft)
    = (Return [telegram_api quiet h1 (greeting 42 catalog);
               telegram_api quiet h2 (main_menu_message 42)], w') /\
    redis w' = store_in MAIN_MENU.
Proof.
  destruct (start_resets_and_greets quiet (text_update 42 "/start")
              (mkMessage 10 (Some (mkUser 42)) (mkChat 42) (Some "/start"))
              (world_with store_with_draft)
              _ healthy_quiet eq_refl eq_refl store_with_draft_decodes)
    as (h1 & h2 & w' & Hrun & Hredis & _).
  exists h1, h2, w'. split; [exact Hrun|].
  rewrite Hredis. vm_compute. reflexivity.
Defined.

Lemma ask_then_question_is_answered_witness :
  exists h w2,
    process_update quiet (text_update 42 "Какие экзамены?")
      (process_update quiet (text_update 42 ask_button) (world_with ∅)).2
    = (Return [telegram_api quiet h
                 (mkSendMessage 42 "Я не знаю" (Some "Markdown") None)], w2) /\
    redis w2 !! 42 = Some {[ "state" := "questions" ]}.
Proof.
  exact (ask_then_question_is_answered quiet
           (text_update 42 ask_button) (text_update 42 "Какие экзамены?")
           (mkMessage 10 (Some (mkUser 42)) (mkChat 42) (Some ask_button))
           (mkMessage 10 (Some (mkUser 42)) (mkChat 42) (Some "Какие экзамены?"))
           "Какие экзамены?" None (world_with ∅)
           healthy_quiet eq_refl eq_refl eq_refl eq_refl eq_refl
           ltac:(discriminate) text_routing_question eq_refl).
Defined.

Lemma handle_client_bot_update_outcome_witness :
  Webhook.handle_client_bot_update quiet validate_option None (world_with ∅)
  = (Return tt, world_with ∅).
Proof.
  apply (proj1 (handle_client_bot_update_outcome quiet validate_option None
                  (world_with ∅))).
  reflexivity.
Defined.

Lemma collect_response_model_iff_witness :
  OpenaiHandlers.collect_response (fun body : string => Return body)
    (Return ok_response)
  = OpenaiHandlers.Model "Я не знаю".
Proof.
  apply (proj2 (collect_response_model_iff (fun body : string => Return body)
                  (Return ok_response) "Я не знаю")).
  exists ok_response, "Я не знаю". repeat split; try reflexivity.
  all: vm_compute; discriminate.
Defined.
